(** * ChainLens server: the AI connection supervisor, the intent classifier
    and the wallet-context summary of [server-simple.js].

    The development is a shallow embedding of the class [GeminiMCPServer] and of
    the helpers it calls.  JavaScript strings are modelled as byte strings
    ([string]); numbers are IEEE 754 binary64 values ([float], the kernel's
    primitive floats); the mutable object [this] and the timer table of the
    event loop form an explicit state, threaded through a small state and
    exception monad; every awaited call to the outside (the language model,
    the Tatum gateway) takes its outcome from an environment record. *)

From Stdlib Require Import ZArith Floats String Ascii List Bool Lia.
From stdpp Require Import gmap strings list.

Open Scope string_scope.

(** ** Text: the string methods the server uses *)

Module Text.

(** Character codes of the separators that cannot be written inside a
    literal here. *)
Definition dq : string := String "034"%char EmptyString.
Definition bs : string := String "092"%char EmptyString.

Definition inRange (lo hi : nat) (c : ascii) : bool :=
  let n := nat_of_ascii c in (lo <=? n)%nat && (n <=? hi)%nat.

Definition isUpper (c : ascii) : bool := inRange 65 90 c.
Definition isLower (c : ascii) : bool := inRange 97 122 c.
Definition isDigit (c : ascii) : bool := inRange 48 57 c.

(** [String.prototype.toLowerCase] and [toUpperCase].  The model maps the
    letters A-Z and a-z; every other byte is left as it is (the two
    non-ASCII characters whose lower case is an ASCII letter, U+212A and
    U+0130, are outside the model). *)
Definition lowerChar (c : ascii) : ascii :=
  if isUpper c then ascii_of_nat (nat_of_ascii c + 32) else c.

Definition upperChar (c : ascii) : ascii :=
  if isLower c then ascii_of_nat (nat_of_ascii c - 32) else c.

Fixpoint mapChars (f : ascii -> ascii) (s : string) : string :=
  match s with
  | EmptyString => EmptyString
  | String c t => String (f c) (mapChars f t)
  end.

Definition toLowerCase : string -> string := mapChars lowerChar.
Definition toUpperCase : string -> string := mapChars upperChar.

(** [s.includes(sub)]: [sub] occurs in [s] at some position. *)
Fixpoint includes (s sub : string) : bool :=
  String.prefix sub s ||
  match s with
  | EmptyString => false
  | String _ t => includes t sub
  end.

(** The character class [[a-fA-F0-9]]. *)
Definition isHexDigit (c : ascii) : bool :=
  isDigit c || inRange 97 102 c || inRange 65 70 c.

(** [[a-fA-F0-9]{n}] anchored at the head of [s]: the [n] characters matched. *)
Fixpoint takeHex (n : nat) (s : string) : option string :=
  match n with
  | O => Some EmptyString
  | S k =>
      match s with
      | EmptyString => None
      | String c t =>
          if isHexDigit c then
            match takeHex k t with
            | Some h => Some (String c h)
            | None => None
            end
          else None
      end
  end.

(** The pattern [/0x[a-fA-F0-9]{40}/] anchored at the head of [s]. *)
Definition addressAt (s : string) : option string :=
  match s with
  | String "0"%char (String "x"%char t) =>
      match takeHex 40 t with
      | Some h => Some (String "0"%char (String "x"%char h))
      | None => None
      end
  | _ => None
  end.

(** [s.match(/0x[a-fA-F0-9]{40}/)]: the leftmost match, as the pair of its
    index and its text (the array's [index] and element [0]); [None] is the
    [null] of a failed match. *)
Fixpoint matchAddress (s : string) : option (nat * string) :=
  match addressAt s with
  | Some a => Some (O, a)
  | None =>
      match s with
      | EmptyString => None
      | String _ t =>
          match matchAddress t with
          | Some (i, a) => Some (S i, a)
          | None => None
          end
      end
  end.

(** [s.slice(0, n)] for a non-negative [n]. *)
Definition sliceTo (n : N) (s : string) : string := substring 0 (N.to_nat n) s.

(** A value is truthy as a string when it is not empty. *)
Definition nonEmpty (s : string) : bool :=
  match s with EmptyString => false | _ => true end.

(** [a || b] on strings. *)
Definition orElse (a b : string) : string := if nonEmpty a then a else b.

(** [parts.join(sep)]. *)
Fixpoint join (sep : string) (parts : list string) : string :=
  match parts with
  | [] => EmptyString
  | [p] => p
  | p :: rest => p +:+ sep +:+ join sep rest
  end.

(** Decimal digits of a non-negative integer. *)
Fixpoint digitsFuel (fuel : nat) (n : Z) (acc : string) : string :=
  match fuel with
  | O => acc
  | S k =>
      let d := ascii_of_nat (48 + Z.to_nat (n mod 10)) in
      if (n <? 10)%Z then String d acc
      else digitsFuel k (n / 10)%Z (String d acc)
  end.

Definition decimal (n : Z) : string :=
  digitsFuel (S (Z.to_nat (Z.log2 n))) n EmptyString.

Fixpoint zeros (n : nat) : string :=
  match n with
  | O => EmptyString
  | S k => String "0"%char (zeros k)
  end.

End Text.

(** ** Numbers: binary64 values and the conversions the server applies *)

Module Num.
Import Text.

Open Scope Z_scope.

(** The double nearest to an integer (ties to even): how an integer that
    was read from text becomes a Number. *)
Definition ofZ (z : Z) : float :=
  SF2Prim (binary_normalize prec emax z 0 false).

(** The double nearest to the fraction [num / den], [0 < den] (ties to even).
    The quotient is taken with more than [prec + 2] bits and one sticky bit, so
    that the rounding of [binary_normalize] is the rounding of the exact
    fraction. *)
Definition ofRatio (num den : Z) : float :=
  if num =? 0 then 0%float
  else
    let a := Z.abs num in
    let k := Z.max 0 (Z.log2 den + 56 - Z.log2 a) in
    let q := (a * 2 ^ k) / den in
    let sticky := if (a * 2 ^ k) mod den =? 0 then 0 else 1 in
    let m := 2 * q + sticky in
    SF2Prim (binary_normalize prec emax (if num <? 0 then - m else m) (- k - 1) false).

(** The double nearest to [s * 10 ^ e]. *)
Definition ofDecimal (s e : Z) : float :=
  if 0 <=? e then ofZ (s * 10 ^ e) else ofRatio s (10 ^ (- e)).

(** The exact value of a finite double, as a fraction with a positive
    denominator. *)
Definition toRatio (x : float) : option (Z * Z) :=
  match Prim2SF x with
  | S754_zero _ => Some (0, 1)
  | S754_finite s m e =>
      let n := if s then Z.neg m else Z.pos m in
      if 0 <=? e then Some (n * 2 ^ e, 1) else Some (n, 2 ^ (- e))
  | _ => None
  end.

(** [Number.isFinite]. *)
Definition isFinite (x : float) : bool := negb (is_nan x) && negb (is_infinity x).

(** Truthiness of a Number: neither zero nor NaN. *)
Definition truthy (x : float) : bool := negb (is_nan x) && negb (is_zero x).

(** [x || y] on Numbers. *)
Definition orElse (x y : float) : float := if truthy x then x else y.

(** *** Number::toString (radix 10)

    The digits are the shortest decimal that reads back as the same double;
    among several of that length, the one nearest the value. *)

Fixpoint firstScale (fuel : nat) (a den j : Z) : Z :=
  match fuel with
  | O => j
  | S k => if den <=? a * 10 ^ j then j else firstScale k a den (j + 1)
  end.

(** The [n] with [10 ^ (n - 1) <= a / den < 10 ^ n], for [0 < a]. *)
Definition decExponent (a den : Z) : Z :=
  if den <=? a then Z.of_nat (String.length (decimal (a / den)))
  else 1 - firstScale 400 a den 1.

(** The decimal [s * 10 ^ (n - k)] with [k] digits that reads back as [x],
    if there is one; [x] is [a / den]. *)
Definition candidate (x : float) (a den n k : Z) : option (Z * Z) :=
  let e := n - k in
  let vnum := if 0 <=? e then a else a * 10 ^ (- e) in
  let vden := if 0 <=? e then den * 10 ^ e else den in
  let lo := vnum / vden in
  let hi := lo + 1 in
  let okLo := (0 <? lo) && PrimFloat.eqb (ofDecimal lo e) x in
  let okHi := PrimFloat.eqb (ofDecimal hi e) x in
  let twice := 2 * (vnum - lo * vden) in
  let preferLo := (twice <? vden) || ((twice =? vden) && Z.even lo) in
  match okLo, okHi with
  | true, true => Some (if preferLo then lo else hi, e)
  | true, false => Some (lo, e)
  | false, true => Some (hi, e)
  | false, false => None
  end.

Fixpoint shortest (fuel : nat) (x : float) (a den n k : Z) : Z * Z :=
  match fuel with
  | O => (a / den, 0)
  | S f =>
      match candidate x a den n k with
      | Some r => r
      | None => shortest f x a den n (k + 1)
      end
  end.

Fixpoint stripZeros (fuel : nat) (s e : Z) : Z * Z :=
  match fuel with
  | O => (s, e)
  | S f => if (s mod 10 =? 0) && (0 <? s) then stripZeros f (s / 10) (e + 1) else (s, e)
  end.

Definition exponentPart (n : Z) : string :=
  "e" +:+ (if 0 <=? n - 1 then "+" else "-") +:+ decimal (Z.abs (n - 1)).

(** The text of a positive finite double whose value is [a / den]. *)
Definition positiveToString (x : float) (a den : Z) : string :=
  let n0 := decExponent a den in
  let '(s0, e0) := shortest 17 x a den n0 1 in
  let '(s, e) := stripZeros 20 s0 e0 in
  let digits := decimal s in
  let k := Z.of_nat (String.length digits) in
  let n := e + k in
  if (k <=? n) && (n <=? 21) then digits +:+ zeros (Z.to_nat (n - k))
  else if (0 <? n) && (n <=? 21) then
    substring 0 (Z.to_nat n) digits +:+ "." +:+
    substring (Z.to_nat n) (Z.to_nat (k - n)) digits
  else if (-6 <? n) && (n <=? 0) then "0." +:+ zeros (Z.to_nat (- n)) +:+ digits
  else if k =? 1 then digits +:+ exponentPart n
  else substring 0 1 digits +:+ "." +:+ substring 1 (Z.to_nat (k - 1)) digits +:+ exponentPart n.

Definition toString (x : float) : string :=
  match Prim2SF x with
  | S754_nan => "NaN"
  | S754_zero _ => "0"
  | S754_infinity s => if s then "-Infinity" else "Infinity"
  | S754_finite s _ _ =>
      match toRatio x with
      | Some (num, den) =>
          (if s then "-" else "") +:+ positiveToString (abs x) (Z.abs num) den
      | None => "NaN"
      end
  end.

(** A Number inside [JSON.stringify]: finite values by [toString], the
    others as [null]. *)
Definition toJSON (x : float) : string := if isFinite x then toString x else "null".

(** *** Number.prototype.toFixed

    [n] is the integer for which [n / 10 ^ f - x] is nearest zero, the larger
    one of two; values of [10 ^ 21] and more are printed by [toString]. *)
Definition toFixed (f : nat) (x : float) : string :=
  match toRatio x with
  | None => toString x
  | Some (num, den) =>
      let a := Z.abs num in
      let sign := if num <? 0 then "-" else "" in
      if 10 ^ 21 * den <=? a then sign +:+ toString (abs x)
      else
        let n := (2 * a * 10 ^ Z.of_nat f + den) / (2 * den) in
        let m := decimal n in
        let k := String.length m in
        let m := if (k <=? f)%nat then zeros (f + 1 - k) +:+ m else m in
        let k := String.length m in
        sign +:+
        (if (f =? 0)%nat then m
         else substring 0 (k - f) m +:+ "." +:+ substring (k - f) f m)
  end.

(** *** Text to Number *)

Definition isSpace (c : ascii) : bool :=
  inRange 9 13 c || (nat_of_ascii c =? 32)%nat.

Fixpoint trimStart (s : string) : string :=
  match s with
  | String c t => if isSpace c then trimStart t else s
  | EmptyString => s
  end.

Definition hexValue (c : ascii) : option Z :=
  let n := Z.of_nat (nat_of_ascii c) in
  if isDigit c then Some (n - 48)
  else if inRange 97 102 c then Some (n - 87)
  else if inRange 65 70 c then Some (n - 55)
  else None.

(** The longest prefix of hexadecimal digits, as an integer; [None] when
    there is no digit. *)
Fixpoint hexPrefix (s : string) (acc : option Z) : option Z :=
  match s with
  | EmptyString => acc
  | String c t =>
      match hexValue c with
      | Some d => hexPrefix t (Some (16 * default 0 acc + d))
      | None => acc
      end
  end.

(** [parseInt(s, 16)]: leading white space, a sign, a [0x] or [0X] prefix,
    then the longest run of hexadecimal digits; NaN when the run is empty. *)
Definition parseInt16 (s : string) : float :=
  let s1 := trimStart s in
  let '(neg, s2) :=
    match s1 with
    | String "-"%char t => (true, t)
    | String "+"%char t => (false, t)
    | _ => (false, s1)
    end in
  let s3 :=
    match s2 with
    | String "0"%char (String "x"%char t) => t
    | String "0"%char (String "X"%char t) => t
    | _ => s2
    end in
  match hexPrefix s3 None with
  | None => nan
  | Some v => if neg then (- ofZ v)%float else ofZ v
  end.

Fixpoint readDigits (s : string) (acc : Z) (count : nat) : Z * nat * string :=
  match s with
  | EmptyString => (acc, count, s)
  | String c t =>
      if isDigit c then readDigits t (10 * acc + (Z.of_nat (nat_of_ascii c) - 48)) (S count)
      else (acc, count, s)
  end.

(** [Number(s)] on the decimal literals that [toFixed] and [toString]
    write: a sign, digits, a fraction, an exponent.  Any other text is read
    as NaN here (the server applies [Number] to the output of [toFixed]
    only). *)
Definition Number (s : string) : float :=
  let '(neg, s1) :=
    match s with
    | String "-"%char t => (true, t)
    | String "+"%char t => (false, t)
    | _ => (false, s)
    end in
  let '(ip, ni, s2) := readDigits s1 0 0 in
  let '(fp, nf, s3) :=
    match s2 with
    | String "."%char t => readDigits t ip 0
    | _ => (ip, O, s2)
    end in
  let '(ex, ne, s4) :=
    match s3 with
    | String "e"%char (String "-"%char t) => let '(v, n, r) := readDigits t 0 0 in (- v, n, r)
    | String "e"%char (String "+"%char t) => readDigits t 0 0
    | String "e"%char t => readDigits t 0 0
    | _ => (0, 1%nat, s3)
    end in
  if (ni + nf =? 0)%nat || (ne =? 0)%nat || nonEmpty s4 then nan
  else
    let v := ofDecimal fp (ex - Z.of_nat nf) in
    if neg then (- v)%float else v.

(** [Math.pow(10, d)] for a non-negative integer [d], correctly rounded. *)
Definition pow10 (d : Z) : float := ofZ (10 ^ d).

(** [Math.round]: the nearest integer, the one towards plus infinity of
    two. *)
Definition round (x : float) : float :=
  match Prim2SF x with
  | S754_finite s m e =>
      if 0 <=? e then x
      else
        let n := if s then Z.neg m else Z.pos m in
        let r := (2 * n + 2 ^ (- e)) / 2 ^ (1 - e) in
        if (r =? 0) && s then (- 0)%float else ofZ r
  | _ => x
  end.

End Num.

(** ** Effects: exceptions, promises and the state of the process *)

Module Js.

(** What a [throw] or a rejected promise carries, as far as the server looks
    at it: the server only ever reads the property [message]. *)
Inductive thrown : Type :=
| JsError (message : string)   (* an Error object *)
| JsNoMessage                  (* a value that has no [message] *)
| JsNullish.                   (* [null] or [undefined] *)

(** The settlement of an awaited promise. *)
Inductive outcome (A : Type) : Type :=
| Resolved (a : A)
| Rejected (e : thrown).
Arguments Resolved {A} a.
Arguments Rejected {A} e.

(** How a piece of code ends. *)
Inductive completion (A : Type) : Type :=
| Normal (a : A)
| Throw (e : thrown).
Arguments Normal {A} a.
Arguments Throw {A} e.

(** Code that runs on a state [S] and either returns or throws. *)
Definition M (S A : Type) : Type := S -> completion A * S.

#[global] Instance M_ret {S} : MRet (M S) := fun A a w => (Normal a, w).

#[global] Instance M_bind {S} : MBind (M S) := fun A B f m w =>
  match m w with
  | (Normal a, w') => f a w'
  | (Throw e, w') => (Throw e, w')
  end.

Definition throw {S A} (e : thrown) : M S A := fun w => (Throw e, w).

Definition get {S} : M S S := fun w => (Normal w, w).

Definition modify {S} (f : S -> S) : M S unit := fun w => (Normal tt, f w).

(** [try { body } catch (e) { handler e }]. *)
Definition tryCatch {S A} (body : M S A) (handler : thrown -> M S A) : M S A :=
  fun w =>
    match body w with
    | (Normal a, w') => (Normal a, w')
    | (Throw e, w') => handler e w'
    end.

(** [promise.catch(() => v)]. *)
Definition catchDefault {S A} (body : M S A) (v : A) : M S A :=
  tryCatch body (fun _ => mret v).

(** [await promise]. *)
Definition await {S A} (o : outcome A) : M S A :=
  match o with
  | Resolved a => mret a
  | Rejected e => throw e
  end.

(** The TypeError of a property read on [undefined] (the text is V8's). *)
Definition typeErrorReading (prop : string) : thrown :=
  JsError ("Cannot read properties of undefined (reading '" +:+ prop +:+ "')").

(** [e.message]: [None] is [undefined]. *)
Definition messageOf {S} (e : thrown) : M S (option string) :=
  match e with
  | JsError m => mret (Some m)
  | JsNoMessage => mret None
  | JsNullish => throw (typeErrorReading "message")
  end.

(** String conversion of a value that is a string or [undefined]. *)
Definition show (v : option string) : string := default "undefined" v.

(** The value a completed call returned, when it did not throw. *)
Definition returned {A} (c : completion A) : option A :=
  match c with
  | Normal a => Some a
  | Throw _ => None
  end.

End Js.

(** ** The AI connection supervisor: [GeminiMCPServer], lines 213-326 *)

Module Supervisor.
Import Js.

(** A timer handle, as [setInterval] returns it. *)
Definition handle : Type := nat.

(** The fields of [this].  [geminiModel] is [null] ([false]) or the one
    client object [genAI] ([true]). *)
Record server : Type := Server {
  isConnected : bool;
  geminiModel : bool;
  requestId : Z;
  retryCount : Z;
  maxRetries : Z;
  healthCheckInterval : option handle;
  fallbackMode : bool;
  connectionAttempts : Z;
  maxConnectionAttempts : Z;
  lastError : option string
}.

(** The process: the supervisor object and the event loop's table of armed
    interval timers. *)
Record world : Type := World {
  this : server;
  timers : gset handle;
  nextHandle : handle
}.

(** The constructor, lines 214-225. *)
Definition constructor : server :=
  {| isConnected := false;
     geminiModel := false;
     requestId := 0;
     retryCount := 0;
     maxRetries := 3;
     healthCheckInterval := None;
     fallbackMode := false;
     connectionAttempts := 0;
     maxConnectionAttempts := 20;
     lastError := None |}.

Definition initial : world :=
  {| this := constructor; timers := ∅; nextHandle := 1 |}.

(** Assignments to the fields of [this]. *)
Definition assign (f : server -> server) : M world unit :=
  modify (fun w => {| this := f (this w); timers := timers w; nextHandle := nextHandle w |}).

Definition set_isConnected (b : bool) (s : server) : server :=
  Server b (geminiModel s) (requestId s) (retryCount s) (maxRetries s)
    (healthCheckInterval s) (fallbackMode s) (connectionAttempts s)
    (maxConnectionAttempts s) (lastError s).

Definition set_geminiModel (b : bool) (s : server) : server :=
  Server (isConnected s) b (requestId s) (retryCount s) (maxRetries s)
    (healthCheckInterval s) (fallbackMode s) (connectionAttempts s)
    (maxConnectionAttempts s) (lastError s).

Definition set_retryCount (n : Z) (s : server) : server :=
  Server (isConnected s) (geminiModel s) (requestId s) n (maxRetries s)
    (healthCheckInterval s) (fallbackMode s) (connectionAttempts s)
    (maxConnectionAttempts s) (lastError s).

Definition set_healthCheckInterval (h : option handle) (s : server) : server :=
  Server (isConnected s) (geminiModel s) (requestId s) (retryCount s) (maxRetries s)
    h (fallbackMode s) (connectionAttempts s)
    (maxConnectionAttempts s) (lastError s).

Definition set_fallbackMode (b : bool) (s : server) : server :=
  Server (isConnected s) (geminiModel s) (requestId s) (retryCount s) (maxRetries s)
    (healthCheckInterval s) b (connectionAttempts s)
    (maxConnectionAttempts s) (lastError s).

Definition set_lastError (e : option string) (s : server) : server :=
  Server (isConnected s) (geminiModel s) (requestId s) (retryCount s) (maxRetries s)
    (healthCheckInterval s) (fallbackMode s) (connectionAttempts s)
    (maxConnectionAttempts s) e.

(** [setInterval(callback, 30000)]: a new handle, armed. *)
Definition setInterval : M world handle :=
  fun w =>
    (Normal (nextHandle w),
     {| this := this w;
        timers := {[ nextHandle w ]} ∪ timers w;
        nextHandle := S (nextHandle w) |}).

(** [clearInterval(h)]. *)
Definition clearInterval (h : handle) : M world unit :=
  modify (fun w => {| this := this w; timers := timers w ∖ {[ h ]}; nextHandle := nextHandle w |}).

(** [enableFallbackMode(reason)], lines 286-298. *)
Definition enableFallbackMode (reason : string) : M world unit :=
  assign (set_fallbackMode true);;
  assign (set_isConnected false);;
  assign (set_lastError (Some reason)).

(** [stopHealthCheck()], lines 300-305. *)
Definition stopHealthCheck : M world unit :=
  w ← get;
  match healthCheckInterval (this w) with
  | Some h =>
      clearInterval h;;
      assign (set_healthCheckInterval None)
  | None => mret tt
  end.

(** [startHealthCheck()], lines 265-284: the old timer is cleared, a new one
    is armed.  What the timer runs is [healthCheckTick] below. *)
Definition startHealthCheck : M world unit :=
  stopHealthCheck;;
  h ← setInterval;
  assign (set_healthCheckInterval (Some h)).

(** The callback of the interval, lines 268-282: with a model client it
    issues a probe (and does not wait for it); the result tells whether it
    did. *)
Definition healthCheckTick : M world bool :=
  w ← get;
  mret (geminiModel (this w)).

(** The [.then] callback of a probe, lines 274-276. *)
Definition healthCheckPassed : M world unit := mret tt.

(** The [.catch] callback of a probe, lines 277-281.  The message is read
    first, for the log line. *)
Definition healthCheckFailed (error : thrown) : M world unit :=
  msg ← messageOf error;
  assign (set_isConnected false);;
  enableFallbackMode ("Health check failed: " +:+ show msg).

(** [start()], lines 227-263, in two parts: up to the [await] of the test
    request, and from its settlement on.  [probe] is how the test request
    ("Hello, are you working?") settles; a resolved probe carries
    [testResult.text]. *)
Definition startBegin : M world unit :=
  assign (set_geminiModel true).

Definition startResume (probe : outcome string) : M world bool :=
  tryCatch
    (tryCatch
       (_ ← await probe;
        assign (set_isConnected true);;
        assign (set_fallbackMode false);;
        assign (set_retryCount 0);;
        startHealthCheck;;
        mret true)
       (fun geminiError =>
          msg ← messageOf geminiError;
          enableFallbackMode ("Gemini initialization failed: " +:+ show msg);;
          mret false))
    (fun error =>
       msg ← messageOf error;
       enableFallbackMode ("Startup failed: " +:+ show msg);;
       mret false).

Definition start (probe : outcome string) : M world bool :=
  startBegin;;
  startResume probe.

(** [restart()], lines 307-313; [restartBegin] is the part that runs before
    the first [await]. *)
Definition restartBegin : M world unit :=
  stopHealthCheck;;
  assign (set_isConnected false);;
  assign (set_retryCount 0);;
  startBegin.

Definition restart (probe : outcome string) : M world bool :=
  stopHealthCheck;;
  assign (set_isConnected false);;
  assign (set_retryCount 0);;
  start probe.

(** [getStatus()], lines 315-326. *)
Record status : Type := Status {
  st_isConnected : bool;
  st_fallbackMode : bool;
  st_lastError : option string;
  st_retryCount : Z;
  st_maxRetries : Z;
  st_hasGeminiModel : bool;
  st_connectionAttempts : Z;
  st_maxConnectionAttempts : Z
}.

Definition getStatus : M world status :=
  w ← get;
  let s := this w in
  mret {| st_isConnected := isConnected s;
          st_fallbackMode := fallbackMode s;
          st_lastError := lastError s;
          st_retryCount := retryCount s;
          st_maxRetries := maxRetries s;
          st_hasGeminiModel := geminiModel s;
          st_connectionAttempts := connectionAttempts s;
          st_maxConnectionAttempts := maxConnectionAttempts s |}.

End Supervisor.

(** ** The chain catalog: [CHAIN_CONFIGS], lines 37-74 *)

Module Catalog.

Record chainConfig : Type := ChainConfig {
  name : string;
  symbol : string;
  decimals : Z;
  apiName : string
}.

(** The object's properties, in the order they are written. *)
Definition CHAIN_CONFIGS : list (string * chainConfig) :=
  [ ("ethereum", ChainConfig "Ethereum" "ETH" 18 "ETH");
    ("polygon", ChainConfig "Polygon" "MATIC" 18 "MATIC");
    ("bsc", ChainConfig "BNB Smart Chain" "BNB" 18 "BSC");
    ("arbitrum", ChainConfig "Arbitrum" "ETH" 18 "ETH");
    ("base", ChainConfig "Base" "ETH" 18 "ETH");
    ("optimism", ChainConfig "Optimism" "ETH" 18 "ETH") ].

(** [o[k]] on an object kept as the list of its properties; [None] is
    [undefined]. *)
Fixpoint property {A} (k : string) (o : list (string * A)) : option A :=
  match o with
  | [] => None
  | (k', v) :: rest => if String.eqb k k' then Some v else property k rest
  end.

(** [o[k] = v]: an existing property keeps its place, a new one goes last. *)
Fixpoint setProperty {A} (k : string) (v : A) (o : list (string * A)) : list (string * A) :=
  match o with
  | [] => [(k, v)]
  | (k', v') :: rest =>
      if String.eqb k k' then (k, v) :: rest else (k', v') :: setProperty k v rest
  end.

(** The chain list of a multi-chain query, line 486. *)
Definition allChains : list string :=
  ["ethereum"; "polygon"; "bsc"; "arbitrum"; "base"; "optimism"].

End Catalog.

(** ** The intent classifier: [getBlockchainContext], lines 529-620 *)

Module Classifier.
Import Text.

(** The values of the field [type]. *)
Inductive contextType : Type :=
| portfolio | nft | wallet | chain | gas | chain_info | general.

Definition typeName (t : contextType) : string :=
  match t with
  | portfolio => "portfolio"
  | nft => "nft"
  | wallet => "wallet"
  | chain => "chain"
  | gas => "gas"
  | chain_info => "chain_info"
  | general => "general"
  end.

(** The object the classifier returns; a field that the returned literal does
    not have is [None]. *)
Record context : Type := Context {
  needsData : bool;
  ctxChain : option string;
  type : contextType;
  address : option string;
  multiChain : option bool
}.

(** The multi-chain phrases, lines 533-540. *)
Definition isMultiChain (lowerMessage : string) : bool :=
  includes lowerMessage "all chain" ||
  includes lowerMessage "multi-chain" ||
  includes lowerMessage "multi chain" ||
  includes lowerMessage "across all" ||
  includes lowerMessage "every chain" ||
  includes lowerMessage "all networks" ||
  includes lowerMessage "multi" ||
  includes lowerMessage "all chains".

Definition getBlockchainContext (message : string) : context :=
  let lowerMessage := toLowerCase message in
  let isMultiChain := isMultiChain lowerMessage in
  match matchAddress lowerMessage with
  | Some (_, address) =>
      if includes lowerMessage "portfolio" || includes lowerMessage "portofolio" ||
         includes lowerMessage "analyze portfolio" || includes lowerMessage "portfolio analysis"
      then
        Context true (Some "ethereum") portfolio (Some address)
          (Some (isMultiChain || includes lowerMessage "portfolio"))
      else if includes lowerMessage "nft" || includes lowerMessage "nft analysis" ||
              includes lowerMessage "nft gallery" || includes lowerMessage "nft collection" ||
              includes lowerMessage "collection"
      then
        Context true (Some "ethereum") nft (Some address)
          (Some (isMultiChain || includes lowerMessage "nft"))
      else if includes lowerMessage "wallet" || includes lowerMessage "balance" ||
              includes lowerMessage "analysis" || includes lowerMessage "check" ||
              includes lowerMessage "analyze" || includes lowerMessage "wallet analysis"
      then
        Context true (Some "ethereum") wallet (Some address)
          (Some (isMultiChain || includes lowerMessage "wallet"))
      else
        Context true (Some "ethereum") wallet (Some address) (Some isMultiChain)
  | None =>
      if includes lowerMessage "ethereum" || includes lowerMessage "eth" then
        Context true (Some "ethereum") chain None None
      else if includes lowerMessage "polygon" || includes lowerMessage "matic" then
        Context true (Some "polygon") chain None None
      else if includes lowerMessage "bsc" || includes lowerMessage "bnb" then
        Context true (Some "bsc") chain None None
      else if includes lowerMessage "arbitrum" || includes lowerMessage "arb" then
        Context true (Some "arbitrum") chain None None
      else if includes lowerMessage "base" then
        Context true (Some "base") chain None None
      else if includes lowerMessage "optimism" || includes lowerMessage "op" then
        Context true (Some "optimism") chain None None
      else if includes lowerMessage "gas" || includes lowerMessage "fee" ||
              includes lowerMessage "gas price" || includes lowerMessage "gas cost" then
        Context true (Some "ethereum") gas None None
      else if includes lowerMessage "chains" || includes lowerMessage "chain info" ||
              includes lowerMessage "supported chains" || includes lowerMessage "blockchain info" ||
              includes lowerMessage "chain" then
        Context false (Some "ethereum") chain_info None None
      else
        Context false None general None None
  end.

End Classifier.

(** ** The data fetchers and the wallet summary *)

Module Backend.
Import Text Js Catalog.

(** The body of an axios response, as far as the server reads it:
    [response.data] may be missing, and so may [data.result]. *)
Inductive response (A : Type) : Type :=
| NoData
| Data (result : option A).
Arguments NoData {A}.
Arguments Data {A} result.

(** The [result] of the token-balance endpoint: an array of balances (each
    kept as its JSON text), or some other value. *)
Inductive tokensValue : Type :=
| TokenArray (items : list string)
| NotAnArray.

(** How the outside answers.  The language model is asked through
    [generateContent], by the text of [contents]; a resolved call carries
    [result.text].  The two RPC requests are given by the chain on whose
    behalf they are sent (several chains share one [apiName]), the
    token-balance request by the value of its [chain] parameter. *)
Record env : Type := Env {
  generateContent : string -> outcome string;
  gasPriceReply : string -> outcome (response string);
  balanceReply : string -> outcome (response string);
  tokensReply : string -> outcome (response tokensValue)
}.

(** [CHAIN_CONFIGS[chain].apiName]: a TypeError for a chain that is not in
    the catalog. *)
Definition apiNameOf {S} (chain : string) : M S string :=
  match property chain CHAIN_CONFIGS with
  | Some c => mret (apiName c)
  | None => throw (typeErrorReading "apiName")
  end.

(** [getGasPrice(chain)], lines 880-901. *)
Definition getGasPrice {S} (E : env) (chain : string) : M S float :=
  tryCatch
    (_ ← apiNameOf chain;
     response ← await (gasPriceReply E chain);
     result ← match response with
              | Data r => mret r
              | NoData => throw (typeErrorReading "result")
              end;
     let gasPriceWei := Num.parseInt16 (show result) in
     let gasPriceGwei := Num.round (gasPriceWei / 1000000000)%float in
     mret gasPriceGwei)
    (fun _ => mret 0%float).

(** The wallet-balance conversion of the route [/api/wallet/:address],
    lines 149-150; [result] is [balanceData.result]. *)
Definition balanceInEth (result : option string) (decimals : Z) : string :=
  let balance := match result with
                 | Some r => orElse r "0"
                 | None => "0"
                 end in
  Num.toFixed 6 (Num.parseInt16 balance / Num.pow10 decimals)%float.

(** The entries of [results] in [fetchWalletContext]. *)
Record nativeBalance : Type := Native {
  wei : float;
  nativeSym : string
}.

Inductive chainResult : Type :=
| ChainData (chain : string) (native : nativeBalance) (tokens : tokensValue)
| ChainError (chain : string) (error : option string).

Definition chainOf (c : chainResult) : string :=
  match c with
  | ChainData chain _ _ => chain
  | ChainError chain _ => chain
  end.

(** What [fetchWalletContext] returns: [{ address, chains }] or
    [{ address, error }]. *)
Inductive fetched : Type :=
| FetchedChains (address : string) (chains : list chainResult)
| FetchFailed (address : string) (error : option string).

(** [chainMapping], lines 398-405. *)
Definition chainMapping : list (string * string) :=
  [ ("ethereum", "ethereum-mainnet");
    ("polygon", "polygon-mainnet");
    ("bsc", "bsc-mainnet");
    ("arbitrum", "arbitrum-one-mainnet");
    ("base", "base-mainnet");
    ("optimism", "optimism-mainnet") ].

(** The body of the loop, lines 411-446: one chain, in its own [try]. *)
Definition fetchChain {S} (E : env) (chain : string) : M S chainResult :=
  tryCatch
    (_ ← apiNameOf chain;
     nativeResp ← await (balanceReply E chain);
     let nativeHex := match nativeResp with
                      | Data (Some r) => orElse r "0x0"
                      | _ => "0x0"
                      end in
     let nativeWei := Num.orElse (Num.parseInt16 nativeHex) 0%float in
     tokenResp ← catchDefault
                   (await (tokensReply E
                             (orElse (default EmptyString (property chain chainMapping)) chain)))
                   (Data (Some (TokenArray [])));
     mret (ChainData chain
             (Native nativeWei
                (orElse (default EmptyString (symbol <$> property chain CHAIN_CONFIGS))
                   (toUpperCase chain)))
             (match tokenResp with
              | Data (Some r) => r
              | _ => TokenArray []
              end)))
    (fun e =>
       msg ← messageOf e;
       mret (ChainError chain msg)).

Fixpoint fetchChains {S} (E : env) (chains : list string) (results : list chainResult)
  : M S (list chainResult) :=
  match chains with
  | [] => mret results
  | chain :: rest =>
      r ← fetchChain E chain;
      fetchChains E rest (results ++ [r])
  end.

(** [fetchWalletContext(address, chains)], lines 396-453. *)
Definition fetchWalletContext {S} (E : env) (address : string) (chains : list string)
  : M S fetched :=
  tryCatch
    (results ← fetchChains E chains [];
     mret (FetchedChains address results))
    (fun error =>
       msg ← messageOf error;
       mret (FetchFailed address msg)).

(** The entries of [summary.chains]. *)
Record chainSummary : Type := ChainSummary {
  nativeSymbol : string;
  nativeApprox : float;
  tokenCount : nat
}.

(** What [summarizeWalletCounts] returns: [{ note: 'no data' }] or
    [{ address, chains }]. *)
Inductive summary : Type :=
| NoDataNote
| Summary (address : string) (chains : list (string * chainSummary)).

(** One turn of the loop of lines 460-470. *)
Definition summarizeChain (c : chainResult) : chainSummary :=
  let tokenCount := match c with
                    | ChainData _ _ (TokenArray items) => length items
                    | _ => O
                    end in
  let nativeFloat := match c with
                     | ChainData _ native _ => (wei native / 1e18)%float
                     | ChainError _ _ => 0%float
                     end in
  {| nativeSymbol := match c with
                     | ChainData chain native _ => orElse (nativeSym native) (toUpperCase chain)
                     | ChainError chain _ => toUpperCase chain
                     end;
     nativeApprox := if Num.isFinite nativeFloat
                     then Num.Number (Num.toFixed 6 nativeFloat)
                     else 0%float;
     tokenCount := tokenCount |}.

Definition summarizeStep (chains : list (string * chainSummary)) (c : chainResult)
  : list (string * chainSummary) :=
  if nonEmpty (chainOf c) then setProperty (chainOf c) (summarizeChain c) chains
  else chains.

(** [summarizeWalletCounts(fetched)], lines 455-472. *)
Definition summarizeWalletCounts (f : fetched) : summary :=
  match f with
  | FetchFailed _ _ => NoDataNote
  | FetchedChains address chains => Summary address (fold_left summarizeStep chains [])
  end.

(** *** [JSON.stringify] of a summary *)

Definition hexDigit (n : nat) : ascii :=
  ascii_of_nat (if (n <? 10)%nat then 48 + n else 87 + n).

Definition escapeChar (c : ascii) : string :=
  let n := nat_of_ascii c in
  if (n =? 34)%nat then bs +:+ dq
  else if (n =? 92)%nat then bs +:+ bs
  else if (n =? 8)%nat then bs +:+ "b"
  else if (n =? 12)%nat then bs +:+ "f"
  else if (n =? 10)%nat then bs +:+ "n"
  else if (n =? 13)%nat then bs +:+ "r"
  else if (n =? 9)%nat then bs +:+ "t"
  else if (n <? 32)%nat then
    bs +:+ "u00" +:+ String (hexDigit (n / 16)) (String (hexDigit (n mod 16)) EmptyString)
  else String c EmptyString.

Fixpoint escape (s : string) : string :=
  match s with
  | EmptyString => EmptyString
  | String c t => escapeChar c +:+ escape t
  end.

Definition quote (s : string) : string := dq +:+ escape s +:+ dq.

Definition chainSummaryJSON (c : chainSummary) : string :=
  "{" +:+ quote "nativeSymbol" +:+ ":" +:+ quote (nativeSymbol c) +:+ "," +:+
  quote "nativeApprox" +:+ ":" +:+ Num.toJSON (nativeApprox c) +:+ "," +:+
  quote "tokenCount" +:+ ":" +:+ decimal (Z.of_nat (tokenCount c)) +:+ "}".

Definition noteJSON (note : string) : string :=
  "{" +:+ quote "note" +:+ ":" +:+ quote note +:+ "}".

Definition summaryJSON (s : summary) : string :=
  match s with
  | NoDataNote => noteJSON "no data"
  | Summary address chains =>
      "{" +:+ quote "address" +:+ ":" +:+ quote address +:+ "," +:+
      quote "chains" +:+ ":{" +:+
      join "," (map (fun kv : string * chainSummary =>
                      quote kv.1 +:+ ":" +:+ chainSummaryJSON kv.2) chains) +:+
      "}}"
  end.

End Backend.

(** ** The responder: [getAIResponse] and the canned texts, lines 328-394 and
    474-527, 622-640 *)

Module Responder.
Import Text Js Catalog Classifier Backend Supervisor.

(** The four texts of [getFallbackResponse], lines 627-639. *)
Definition helpText : string :=
  "🔄 **Fallback AI Response - Help**

**Available Commands in Fallback Mode:**

**Wallet Analysis:**
• " +:+ dq +:+ "Analyze wallet 0x1234..." +:+ dq +:+ " - Single chain analysis
• " +:+ dq +:+ "Multi-chain wallet 0x1234..." +:+ dq +:+ " - All chains analysis

**Portfolio Tracking:**
• " +:+ dq +:+ "Portfolio 0x1234..." +:+ dq +:+ " - Comprehensive portfolio analysis
• " +:+ dq +:+ "All chains portfolio 0x1234..." +:+ dq +:+ " - Multi-chain portfolio

**NFT Analysis:**
• " +:+ dq +:+ "NFTs 0x1234..." +:+ dq +:+ " - NFT collection analysis
• " +:+ dq +:+ "Multi-chain NFTs 0x1234..." +:+ dq +:+ " - All chains NFT analysis

**Blockchain Info:**
• " +:+ dq +:+ "Ethereum info" +:+ dq +:+ " - Chain information
• " +:+ dq +:+ "Gas prices" +:+ dq +:+ " - Current gas fees
• " +:+ dq +:+ "Supported chains" +:+ dq +:+ " - Available networks

**Status:** Fallback Mode Active
*I can still provide real blockchain data using Tatum APIs!*".

Definition supportedChainsText : string :=
  "🔄 **Fallback AI Response - Supported Chains**

**Available Blockchains:**
• **Ethereum (ETH)** - Mainnet
• **Polygon (MATIC)** - Layer 2
• **BNB Smart Chain (BNB)** - Binance Chain
• **Arbitrum (ETH)** - Layer 2
• **Base (ETH)** - Coinbase Layer 2
• **Optimism (ETH)** - Layer 2

**Features Available:**
• Wallet balance checking
• Token portfolio analysis
• NFT collection tracking
• Gas price monitoring
• Multi-chain support

**Status:** Fallback Mode Active
*All data comes from real blockchain via Tatum APIs!*".

Definition systemStatusText : string :=
  "🔄 **Fallback AI Response - System Status**

**Current Status:**
• **Gemini AI:** Fallback Mode
• **Tatum APIs:** Active ✅
• **Multi-Chain Support:** Available ✅
• **Real-time Data:** Available ✅

**What's Working:**
• Wallet analysis across all chains
• Portfolio tracking and risk analysis
• NFT collection analysis
• Gas price monitoring
• Blockchain information

**What's Limited:**
• Advanced AI analysis (using fallback)
• Gemini-specific features

*I'm still fully functional for blockchain analysis!*".

Definition defaultText (message : string) : string :=
  "🔄 **Fallback AI Response**

**Your Query:** " +:+ dq +:+ message +:+ dq +:+ "

I'm currently operating in fallback mode due to Gemini AI connectivity issues. However, I can still provide comprehensive blockchain analysis:

**Available Features:**
• **Multi-Chain Wallet Analysis** - Check balances across 6 chains
• **Portfolio Tracking** - Complete portfolio analysis with risk assessment
• **NFT Analysis** - Multi-chain NFT collection tracking
• **Real-time Data** - Live blockchain data via Tatum APIs
• **Gas Price Monitoring** - Current network fees

**Example Commands:**
• " +:+ dq +:+ "Analyze wallet 0x1234..." +:+ dq +:+ "
• " +:+ dq +:+ "Multi-chain portfolio 0x1234..." +:+ dq +:+ "
• " +:+ dq +:+ "NFTs 0x1234..." +:+ dq +:+ "
• " +:+ dq +:+ "Supported chains" +:+ dq +:+ "

**Status:** Fallback Mode Active
*I'm still fully functional for blockchain analysis!*".

(** The prompt of [getGeminiResponse], lines 492-509; [summaryText] is the
    serialised summary. *)
Definition promptFor (message : string) (context : context) (summaryText : string) : string :=
  "You are a blockchain analytics AI assistant powered by Gemini. Use ONLY the provided context data to answer. If data is missing, say so briefly.
            
User Query: " +:+ dq +:+ message +:+ dq +:+ "

Detected Context:
- Type: " +:+ typeName (type context) +:+ "
- Multi-chain: " +:+ (if default false (multiChain context) then "true" else "false") +:+ "

Provided Summary (JSON):
" +:+ sliceTo 60000%N summaryText +:+ "

Instructions:
- Respond in English.
- Report per-chain: native balance (approx) and tokenCount only.
- Do NOT list token addresses or make price assumptions.
- Keep it short and scannable with bullets.

Response:".

(** [getFallbackResponse(message)], lines 622-640. *)
Definition getFallbackResponse (message : string) : string :=
  let lowerMessage := toLowerCase message in
  if includes lowerMessage "help" || includes lowerMessage "what can you do" then helpText
  else if includes lowerMessage "supported" || includes lowerMessage "chains" ||
          includes lowerMessage "networks" then supportedChainsText
  else if includes lowerMessage "status" || includes lowerMessage "health" then systemStatusText
  else defaultText message.

(** [getGeminiResponse(message)], lines 474-527. *)
Definition getGeminiResponse (E : env) (message : string) : M world string :=
  tryCatch
    (let context := getBlockchainContext message in
     summary ← match type context with
               | wallet | portfolio =>
                   let chains := if default false (multiChain context)
                                 then allChains else ["ethereum"] in
                   fetched ← fetchWalletContext E (show (address context)) chains;
                   mret (Some (summarizeWalletCounts fetched))
               | _ => mret None
               end;
     let prompt := promptFor message context
                     (match summary with
                      | Some s => summaryJSON s
                      | None => noteJSON "no summary available"
                      end) in
     w ← get;
     if geminiModel (this w) then await (generateContent E prompt)
     else throw (typeErrorReading "models"))
    (fun _ => mret (getFallbackResponse message)).

(** The text of the test request of [start], line 239. *)
Definition testRequest : string := "Hello, are you working?".

(** [getAIResponse(message)], lines 328-394. *)
Definition getAIResponse (E : env) (message : string) : M world string :=
  tryCatch
    (let lower := toLowerCase message in
     let context := getBlockchainContext message in
     match type context with
     | gas =>
         let chain := default "ethereum" (ctxChain context) in
         gwei ← catchDefault (getGasPrice E chain) 0%float;
         if (0 <? gwei)%float then
           mret ("⛽ Gas price on " +:+ toUpperCase chain +:+ ": ~" +:+ Num.toString gwei +:+
                 " Gwei (estimate)")
         else
           mret ("⛽ Gas price on " +:+ toUpperCase chain +:+ ": data unavailable right now.")
     | chain_info =>
         let chains :=
           join ", "
             (map (fun kv : string * chainConfig => name kv.2 +:+ " (" +:+ symbol kv.2 +:+ ")")
                CHAIN_CONFIGS) in
         mret ("Supported chains: " +:+ chains)
     | _ =>
         if includes lower "system status" then
           m ← getStatus;
           mret ("System status: server running, MCP: " +:+
                 (if st_isConnected m then "connected" else "not connected") +:+
                 ", fallback: " +:+ (if st_fallbackMode m then "on" else "off"))
         else if includes lower "mcp status" then
           m ← getStatus;
           mret ("MCP status -> connected: " +:+
                 (if st_isConnected m then "true" else "false") +:+
                 ", fallback: " +:+ (if st_fallbackMode m then "true" else "false") +:+
                 ", lastError: " +:+ orElse (default EmptyString (st_lastError m)) "none")
         else if includes lower "restart mcp" then
           ok ← catchDefault (restart (generateContent E testRequest)) false;
           mret (if (ok : bool) then "MCP server restarted successfully."
                 else "Failed to restart MCP server.")
         else if includes lower "force fallback" then
           enableFallbackMode "Forced via chat command";;
           mret "Fallback mode activated."
         else
           w ← get;
           if geminiModel (this w) && isConnected (this w) then getGeminiResponse E message
           else mret (getFallbackResponse message)
     end)
    (fun _ => mret (getFallbackResponse message)).

End Responder.

(** ** The process as a machine: what can happen, one step at a time *)

Module Machine.
Import Js Supervisor Backend Responder.

(** The calls into the supervisor, the events of the health-check timer, and
    the two halves of [start] and [restart] around their [await] (so that
    other steps may come between a call and its continuation). *)
Inductive action : Type :=
| CallStart (probe : outcome string)
| CallRestart (probe : outcome string)
| CallStartHealthCheck
| CallStopHealthCheck
| CallEnableFallbackMode (reason : string)
| CallGetStatus
| CallGetAIResponse (E : env) (message : string)
| TimerTick
| ProbePassed
| ProbeFailed (error : thrown)
| BeginStart
| BeginRestart
| ResumeStart (probe : outcome string).

(** The state a piece of code leaves. *)
Definition after {A} (m : M world A) (w : world) : world := (m w).2.

(** What a piece of code returns or throws. *)
Definition result {A} (m : M world A) (w : world) : completion A := (m w).1.

Definition perform (a : action) (w : world) : world :=
  match a with
  | CallStart probe => after (start probe) w
  | CallRestart probe => after (restart probe) w
  | CallStartHealthCheck => after startHealthCheck w
  | CallStopHealthCheck => after stopHealthCheck w
  | CallEnableFallbackMode reason => after (enableFallbackMode reason) w
  | CallGetStatus => after getStatus w
  | CallGetAIResponse E message => after (getAIResponse E message) w
  | TimerTick => after healthCheckTick w
  | ProbePassed => after healthCheckPassed w
  | ProbeFailed error => after (healthCheckFailed error) w
  | BeginStart => after startBegin w
  | BeginRestart => after restartBegin w
  | ResumeStart probe => after (startResume probe) w
  end.

Definition run (acts : list action) (w : world) : world :=
  fold_left (fun w a => perform a w) acts w.

(** The chat messages that [getAIResponse] answers by calling [restart()]:
    those that get as far as the restart command of line 368. *)
Definition reachesRestart (message : string) : bool :=
  let lower := Text.toLowerCase message in
  match Classifier.type (Classifier.getBlockchainContext message) with
  | Classifier.gas | Classifier.chain_info => false
  | _ =>
      negb (Text.includes lower "system status") &&
      negb (Text.includes lower "mcp status") &&
      Text.includes lower "restart mcp"
  end.

(** A step that is, or carries, a [start()] whose test request succeeds: the
    call itself, its continuation, a [restart()], or a chat message that
    reaches the restart command. *)
Definition startsWithSuccess (a : action) : bool :=
  match a with
  | CallStart (Resolved _) | CallRestart (Resolved _) | ResumeStart (Resolved _) => true
  | CallGetAIResponse E message =>
      reachesRestart message &&
      match generateContent E testRequest with
      | Resolved _ => true
      | Rejected _ => false
      end
  | _ => false
  end.

End Machine.

(** ** The properties, as they are stated below *)

Module Props.
Import Text Js Supervisor Catalog Classifier Backend Responder Machine.

(** Code that leaves the state as it found it. *)
Definition readOnly {S A} (m : M S A) : Prop := forall w, (m w).2 = w.

(** Not both connected and in fallback mode. *)
Definition consistent (w : world) : Prop :=
  isConnected (this w) && fallbackMode (this w) = false.

(** The armed timers are the one whose handle the supervisor keeps, if it
    keeps one. *)
Definition armed (w : world) : Prop :=
  timers w = match healthCheckInterval (this w) with
             | Some h => {[ h ]}
             | None => ∅
             end.

(** [sub] occurs in [s]. *)
Definition occurs (sub s : string) : Prop :=
  exists pre post, s = pre +:+ sub +:+ post.

Fixpoint allHex (s : string) : bool :=
  match s with
  | EmptyString => true
  | String c t => isHexDigit c && allHex t
  end.

(** The text of an address: [0x] and forty hexadecimal digits, of either
    case. *)
Definition addressText (a : string) : Prop :=
  exists h, a = "0x" +:+ h /\ String.length h = 40%nat /\ allHex h = true.

(** The message contains an address. *)
Definition containsAddress (message : string) : Prop :=
  exists pre a post, message = pre +:+ a +:+ post /\ addressText a.

(** The suffix of [s] from index [i]. *)
Fixpoint from (i : nat) (s : string) : string :=
  match i, s with
  | O, _ => s
  | S k, String _ t => from k t
  | S _, EmptyString => EmptyString
  end.

Definition isChainData (r : chainResult) : bool :=
  match r with
  | ChainData _ _ _ => true
  | ChainError _ _ => false
  end.

Definition isChainError (r : chainResult) : bool := negb (isChainData r).

(** The [message] of a thrown value that has one to read. *)
Definition readable (e : thrown) : option (option string) :=
  match e with
  | JsError m => Some (Some m)
  | JsNoMessage => Some None
  | JsNullish => None
  end.

(** *** The inputs of the examples *)

(** The supervisor after a [start()] whose test request failed. *)
Definition fallbackWorld : world :=
  after (start (Rejected (JsError "API key not valid"))) initial.

(** A gateway that reports a gas price of 42 Gwei (42000000000 wei) and
    a balance of 1500000000000000000 wei on every chain, with no tokens; the
    model answers with a fixed text. *)
Definition steadyEnv : env :=
  {| generateContent := fun _ => Resolved "ok";
     gasPriceReply := fun _ => Resolved (Data (Some "0x9c7652400"));
     balanceReply := fun _ => Resolved (Data (Some "0x14d1120d7b160000"));
     tokensReply := fun _ => Resolved (Data (Some (TokenArray []))) |}.

(** The same gateway, with every balance at zero. *)
Definition emptyEnv : env :=
  {| generateContent := generateContent steadyEnv;
     gasPriceReply := gasPriceReply steadyEnv;
     balanceReply := fun _ => Resolved (Data (Some "0x0"));
     tokensReply := tokensReply steadyEnv |}.

(** A gateway like [base], with the balance request of one chain failing. *)
Definition failingOn (base : env) (failing : string) : env :=
  {| generateContent := generateContent base;
     gasPriceReply := gasPriceReply base;
     balanceReply := fun c =>
       if String.eqb c failing then Rejected (JsError "Request failed with status code 500")
       else balanceReply base c;
     tokensReply := tokensReply base |}.

Definition gasOnEthereum : string := "Show gas price on Ethereum".

Definition upperAddress : string := "0xABCDEF0123456789ABCDEF0123456789ABCDEF01".

Definition portfolioMessage : string := "portfolio " +:+ upperAddress.

Definition zeroAddress : string := "0x0000000000000000000000000000000000000000".

Definition walletMessage : string := "wallet " +:+ zeroAddress.

Definition balanceMessage : string := "balance of " +:+ zeroAddress.

(** The reply of the gateway for a balance of 1500000000000000000 wei. *)
Definition oneAndAHalf : string := "0x14d1120d7b160000".

(** The entry of [results] for that balance on Ethereum, without tokens. *)
Definition oneAndAHalfEntry : chainResult :=
  ChainData "ethereum" (Native (Num.parseInt16 oneAndAHalf) "ETH") (TokenArray []).

(** The summary of a wallet, fetched over all six chains from the gateway
    [E]; [None] if the fetch threw. *)
Definition summaryOf (E : env) (address : string) : option summary :=
  summarizeWalletCounts <$>
    returned (result (fetchWalletContext E address allChains) initial).

(** The entry of a chain in a summary. *)
Definition chainEntry (chain : string) (s : option summary) : option chainSummary :=
  match s with
  | Some (Summary _ chains) => property chain chains
  | _ => None
  end.

End Props.

(** ** More conversions *)

Module NumMore.
Import Text.

Open Scope Z_scope.

(** [Math.floor]: the largest integer that is not above the value. *)
Definition floor (x : float) : float :=
  match Prim2SF x with
  | S754_finite s m e =>
      if 0 <=? e then x
      else
        let n := if s then Z.neg m else Z.pos m in
        Num.ofZ (n / 2 ^ (- e))
  | _ => x
  end.

(** [parseFloat] on what [toFixed] writes: the two infinities by name, a
    decimal literal by [Number], and NaN for the text [NaN]. *)
Definition parseFloat (s : string) : float :=
  if String.eqb s "Infinity" then infinity
  else if String.eqb s "-Infinity" then neg_infinity
  else Num.Number s.

(** The text of a non-negative integer in hexadecimal, with the prefix [0x],
    as the node writes a quantity. *)
Fixpoint hexDigitsFuel (fuel : nat) (n : Z) (acc : string) : string :=
  match fuel with
  | O => acc
  | S k =>
      let d := Z.to_nat (n mod 16) in
      let c := ascii_of_nat (if (d <? 10)%nat then 48 + d else 87 + d) in
      if n <? 16 then String c acc else hexDigitsFuel k (n / 16) (String c acc)
  end.

Definition quantity (n : Z) : string :=
  "0x" +:+ hexDigitsFuel (S (Z.to_nat (Z.log2 n))) n EmptyString.

End NumMore.

(** ** The routes, lines 128-210 and 657-789 *)

Module Routes.
Import Text Js Supervisor Catalog Classifier Backend Responder Machine.

(** *** The chat route, lines 657-703 *)

(** The JSON of an answer. *)
Record chatBody : Type := ChatBody {
  chatResponse : string;
  mcpConnected : bool;
  chatFallbackMode : bool;
  chatLastError : option string;
  chatStatus : string
}.

(** What the route sends: the answer, or the status 500 with an [error] and
    a [response]. *)
Inductive chatReply : Type :=
| ChatJson (body : chatBody)
| ChatFailed (error : string) (text : string).

(** [getAIResponse(message)] for a message that may be missing from the
    body.  On [undefined] line 335 throws a TypeError, the handler of line
    389 calls [getFallbackResponse], and line 623 throws it again. *)
Definition getAIResponseOf (E : env) (message : option string) : M world string :=
  match message with
  | Some m => getAIResponse E m
  | None => throw (typeErrorReading "toLowerCase")
  end.

(** The [status] of lines 672 and 679. *)
Definition statusLabel (connected fallback : bool) : string :=
  if connected then "Gemini Active"
  else if fallback then "Fallback Mode" else "Gemini Inactive".

Definition systemErrorText (detail : string) : string :=
  "❌ **System Error:**

Sorry, there was an error processing your request: " +:+ detail +:+ "

*Please try again.*".

Definition systemErrorPlain : string :=
  "❌ **System Error:**

Sorry, there was an error processing your request. Please try again.".

(** The handler of [POST /api/chat]; [body] is [req.body], [None] when there
    is none, and holds the [message] when it has one. *)
Definition chatRoute (E : env) (body : option (option string)) : M world chatReply :=
  tryCatch
    (message ← match body with
               | Some m => mret m
               | None =>
                   throw (JsError
                     "Cannot destructure property 'message' of 'req.body' as it is undefined.")
               end;
     tryCatch
       (response ← getAIResponseOf E message;
        w ← get;
        mret (ChatJson
                (ChatBody response (isConnected (this w)) (fallbackMode (this w))
                   (lastError (this w))
                   (statusLabel (isConnected (this w)) (fallbackMode (this w))))))
       (fun error =>
          msg ← messageOf error;
          mret (ChatJson (ChatBody (systemErrorText (show msg)) false false msg "Error"))))
    (fun error =>
       msg ← messageOf error;
       mret (ChatFailed ("Failed to get AI response: " +:+ show msg) systemErrorPlain)).

(** *** The restart and force-fallback routes, lines 753-789 *)

Inductive adminReply : Type :=
| AdminJson (success : bool) (message : string) (mcp : Supervisor.status)
| AdminFailed (error : string).

Definition restartRoute (probe : outcome string) : M world adminReply :=
  tryCatch
    (success ← restart probe;
     mcp ← getStatus;
     mret (AdminJson success
             (if (success : bool) then "Gemini MCP server restarted successfully"
              else "Failed to restart Gemini MCP server")
             mcp))
    (fun _ => mret (AdminFailed "Failed to restart Gemini MCP server")).

Definition forceFallbackRoute : M world adminReply :=
  tryCatch
    (enableFallbackMode "Manual fallback activation for testing";;
     mcp ← getStatus;
     mret (AdminJson true "Fallback mode activated successfully" mcp))
    (fun _ => mret (AdminFailed "Failed to activate fallback mode")).

(** *** The wallet and gas routes, lines 76-99 and 128-210 *)

(** The names every object inherits from [Object.prototype]. *)
Definition objectPrototypeNames : list string :=
  [ "constructor"; "__defineGetter__"; "__defineSetter__"; "hasOwnProperty";
    "__lookupGetter__"; "__lookupSetter__"; "isPrototypeOf"; "propertyIsEnumerable";
    "toString"; "valueOf"; "__proto__"; "toLocaleString" ].

(** [CHAIN_CONFIGS[chain]] for a key that comes from the request: an entry
    of the catalog, a member inherited from [Object.prototype] (truthy, and
    without [apiName] or [decimals]), or [undefined]. *)
Inductive member : Type :=
| Own (config : chainConfig)
| Inherited
| Absent.

Definition memberOf (chain : string) : member :=
  match property chain CHAIN_CONFIGS with
  | Some c => Own c
  | None => if existsb (String.eqb chain) objectPrototypeNames then Inherited else Absent
  end.

(** The RPC gateway: how the node of a name answers a method; a resolved
    call carries [response.data]. *)
Record gateway : Type := Gateway {
  nodeReply : string -> string -> outcome (response string)
}.

(** [callTatumAPI(endpoint, data)], lines 77-99, for the node endpoint: the
    error is logged, which reads its [response] first, and thrown again. *)
Definition callTatumAPI {S} (G : gateway) (node method : string) : M S (response string) :=
  tryCatch
    (await (nodeReply G node method))
    (fun error =>
       match error with
       | JsNullish => throw (typeErrorReading "response")
       | _ => throw error
       end).

(** What a data route sends: a JSON body, or a status with an [error]. *)
Inductive reply (A : Type) : Type :=
| Json (body : A)
| Failed (code : Z) (error : string).
Arguments Json {A} body.
Arguments Failed {A} code error.

(** The node name in the URL: [apiName], or the text of [undefined]. *)
Definition nodeOf (m : member) : string :=
  match m with
  | Own c => apiName c
  | _ => "undefined"
  end.

(** [balanceData.result], a TypeError when there is no data. *)
Definition resultOf {S} (data : response string) : M S (option string) :=
  match data with
  | Data r => mret r
  | NoData => throw (typeErrorReading "result")
  end.

(** [x || '0'] on a [result]. *)
Definition orZero (result : option string) : string :=
  match result with
  | Some r => orElse r "0"
  | None => "0"
  end.

Record walletBody : Type := WalletBody {
  balance : string;
  usdValue : float;
  walletChain : string;
  walletAddress : string
}.

(** The handler of [GET /api/wallet/:address], lines 128-167; [chain] is the
    query parameter, [None] when there is none. *)
Definition walletRoute {S} (G : gateway) (address : string) (chain : option string)
  : M S (reply walletBody) :=
  tryCatch
    (match memberOf (show chain) with
     | Absent => mret (Failed 400 "Unsupported chain")
     | m =>
         balanceData ← callTatumAPI G (nodeOf m) "eth_getBalance";
         result ← resultOf balanceData;
         let balance := orZero result in
         let power := match m with
                      | Own c => Num.pow10 (decimals c)
                      | _ => nan
                      end in
         let balanceInEth := Num.toFixed 6 (Num.parseInt16 balance / power)%float in
         mret (Json (WalletBody balanceInEth 0%float (show chain) address))
     end)
    (fun error =>
       msg ← messageOf error;
       mret (Failed 500 ("Failed to get wallet balance: " +:+ show msg))).

Record gasTiers : Type := GasTiers {
  slow : float;
  standard : float;
  fast : float;
  baseFee : float
}.

(** The four tiers of lines 191-200, from [gasData.result]. *)
Definition tiersOf (result : option string) : gasTiers :=
  let gasPrice := orZero result in
  let gasPriceInGwei := Num.toFixed 2 (Num.parseInt16 gasPrice / Num.pow10 9)%float in
  let gasPriceValue := NumMore.parseFloat gasPriceInGwei in
  {| slow := Num.round (gasPriceValue * Num.ofDecimal 8 (-1))%float;
     standard := Num.round gasPriceValue;
     fast := Num.round (gasPriceValue * Num.ofDecimal 12 (-1))%float;
     baseFee := Num.round (gasPriceValue * Num.ofDecimal 9 (-1))%float |}.

(** The handler of [GET /api/gas/:chain], lines 170-210. *)
Definition gasRoute {S} (G : gateway) (chain : string) : M S (reply (gasTiers * string)) :=
  tryCatch
    (match memberOf chain with
     | Absent => mret (Failed 400 "Unsupported chain")
     | m =>
         gasData ← callTatumAPI G (nodeOf m) "eth_gasPrice";
         result ← resultOf gasData;
         mret (Json (tiersOf result, chain))
     end)
    (fun error =>
       msg ← messageOf error;
       mret (Failed 500 ("Failed to get gas price: " +:+ show msg))).

End Routes.

(** ** The analytics, lines 903-978 *)

Module Analytics.
Import Text Js Catalog Backend.

(** The outside of the analytics: the gateway of the fetchers, the answers
    to [eth_blockNumber] by chain, and the values [Math.random] gives, by
    the number of the call. *)
Record source : Type := Source {
  fetchers : env;
  blockNumberReply : string -> outcome (response string);
  randomValue : nat -> float
}.

(** [Math.random()]; the state is the number of calls made so far. *)
Definition mathRandom (A : source) : M nat float :=
  fun n => (Normal (randomValue A n), S n).

Record networkStats : Type := NetworkStats {
  transactionCount : float;
  volume : float;
  activeWallets : float;
  blockNumber : float
}.

Definition noStats : networkStats := NetworkStats 0 0 0 0.

(** [getNetworkStats(chain)], lines 946-978. *)
Definition getNetworkStats (A : source) (chain : string) : M nat networkStats :=
  tryCatch
    (_ ← apiNameOf chain;
     response ← await (blockNumberReply A chain);
     result ← match response with
              | Data r => mret r
              | NoData => throw (typeErrorReading "result")
              end;
     let currentBlock := Num.parseInt16 (show result) in
     let baseActivity := NumMore.floor (currentBlock / 1000)%float in
     r1 ← mathRandom A;
     r2 ← mathRandom A;
     r3 ← mathRandom A;
     mret {| transactionCount := (baseActivity * 100 + NumMore.floor (r1 * 50000))%float;
             volume := (baseActivity * 1000000 + NumMore.floor (r2 * 100000000))%float;
             activeWallets := (baseActivity * 10 + NumMore.floor (r3 * 10000))%float;
             blockNumber := currentBlock |})
    (fun _ => mret noStats).

Record chainStats : Type := ChainStats {
  chainName : string;
  chainSymbol : string;
  gasPrice : float;
  stats : networkStats
}.

(** The object [analytics] of lines 906-914; [priceChanges] and
    [networkStats] are empty objects that nothing writes. *)
Record analytics : Type := AnalyticsData {
  totalTransactions : float;
  totalVolume : float;
  activeWalletsTotal : float;
  chainDistribution : list (string * chainStats);
  marketCap : float
}.

Definition emptyAnalytics : analytics := AnalyticsData 0 0 0 [] 0.

(** One turn of the loop of lines 917-940. *)
Definition analyseChain (A : source) (a : analytics) (chain : string) : M nat analytics :=
  tryCatch
    (gasPrice ← getGasPrice (fetchers A) chain;
     networkStats ← getNetworkStats A chain;
     config ← match property chain CHAIN_CONFIGS with
              | Some c => mret c
              | None => throw (typeErrorReading "name")
              end;
     mret {| totalTransactions :=
               (totalTransactions a + Num.orElse (transactionCount networkStats) 0)%float;
             totalVolume := (totalVolume a + Num.orElse (volume networkStats) 0)%float;
             activeWalletsTotal :=
               (activeWalletsTotal a + Num.orElse (activeWallets networkStats) 0)%float;
             chainDistribution :=
               setProperty chain
                 (ChainStats (name config) (symbol config) gasPrice networkStats)
                 (chainDistribution a);
             marketCap := marketCap a |})
    (fun _ => mret a).

Fixpoint analyseChains (A : source) (a : analytics) (chains : list string) : M nat analytics :=
  match chains with
  | [] => mret a
  | chain :: rest =>
      a' ← analyseChain A a chain;
      analyseChains A a' rest
  end.

(** [getRealAnalyticsData()], lines 904-943. *)
Definition getRealAnalyticsData (A : source) : M nat analytics :=
  analyseChains A emptyAnalytics allChains.

End Analytics.

(** ** Further properties, as they are stated below *)

Module MoreProps.
Import Text Js Supervisor Catalog Classifier Backend Responder Machine.

(** The messages that carry none of the four commands of [getAIResponse],
    lines 356-377. *)
Definition commandFree (message : string) : bool :=
  let lower := toLowerCase message in
  negb (includes lower "system status") && negb (includes lower "mcp status") &&
  negb (includes lower "restart mcp") && negb (includes lower "force fallback").

(** The messages that go to the default flow of lines 379-387: neither a gas
    nor a chain-list query, and no command. *)
Definition plainChat (message : string) : bool :=
  match type (getBlockchainContext message) with
  | gas | chain_info => false
  | _ => commandFree message
  end.

(** The text that [getAIResponse] answers a chain-list query with. *)
Definition supportedChainsLine : string :=
  "Supported chains: Ethereum (ETH), Polygon (MATIC), BNB Smart Chain (BNB), Arbitrum (ETH), Base (ETH), Optimism (ETH)".

(** The tiers are in the order slow, base fee, standard, fast. *)
Definition tiersInOrder (t : Routes.gasTiers) : bool :=
  PrimFloat.leb (Routes.slow t) (Routes.baseFee t) &&
  PrimFloat.leb (Routes.baseFee t) (Routes.standard t) &&
  PrimFloat.leb (Routes.standard t) (Routes.fast t).

(** The tiers of a price of [g] Gwei have [g] as the standard tier and are
    in order. *)
Definition wholeGweiTiers (g : nat) : bool :=
  let t := Routes.tiersOf (Some (NumMore.quantity (Z.of_nat g * 10 ^ 9))) in
  String.eqb (Num.toString (Routes.standard t)) (decimal (Z.of_nat g)) &&
  tiersInOrder t.

(** A gateway whose node answers every balance request with the same
    quantity. *)
Definition constantGateway (result : string) : Routes.gateway :=
  Routes.Gateway (fun _ _ => Resolved (Data (Some result))).

(** The analytics of a source of which every request fails. *)
Definition failingSource : Analytics.source :=
  Analytics.Source
    {| generateContent := fun _ => Rejected (JsError "offline");
       gasPriceReply := fun _ => Rejected (JsError "offline");
       balanceReply := fun _ => Rejected (JsError "offline");
       tokensReply := fun _ => Rejected (JsError "offline") |}
    (fun _ => Rejected (JsError "offline"))
    (fun _ => 0%float).

End MoreProps.

(** ** Proofs *)

Import Text Js Supervisor Catalog Classifier Backend Responder Machine Props.

(** Goals that are settled by running the code. *)
Ltac by_running :=
  repeat match goal with |- _ /\ _ => split end; vm_compute; reflexivity.

(** *** The conversions, on known values *)

Example toString_values :
  Num.toString 1.5 = "1.5" /\ Num.toString 42 = "42" /\ Num.toString (-0) = "0" /\
  Num.toString 1e21 = "1e+21" /\ Num.toString (Num.ofZ 123456789012345680000) = "123456789012345680000" /\
  Num.toString (Num.ofDecimal 1 (-1)) = "0.1" /\
  Num.toString (Num.ofDecimal 1 (-1) + Num.ofDecimal 2 (-1)) = "0.30000000000000004" /\
  Num.toString (Num.ofDecimal 1 (-7)) = "1e-7" /\
  Num.toString (Num.ofDecimal 5 (-324)) = "5e-324" /\
  Num.toString (Num.ofZ (2 ^ 53 + 1)) = "9007199254740992".
Proof. by_running. Qed.

Example toFixed_values :
  Num.toFixed 6 1.5 = "1.500000" /\ Num.toFixed 6 0 = "0.000000" /\
  Num.toFixed 2 2.5 = "2.50" /\ Num.toFixed 0 2.5 = "3" /\
  Num.toFixed 2 (Num.ofDecimal 1005 (-3)) = "1.00" /\
  Num.toFixed 6 (Num.ofDecimal (-1) (-7)) = "-0.000000" /\
  Num.toFixed 6 1e21 = "1e+21" /\ Num.toFixed 6 nan = "NaN".
Proof. by_running. Qed.

Example parse_values :
  Num.parseInt16 "0xff" = 255%float /\ Num.parseInt16 "  -0XfF zz" = (-255)%float /\
  Num.parseInt16 "0x3B9ACA00" = 1000000000%float /\
  is_nan (Num.parseInt16 "undefined") = true /\ is_nan (Num.parseInt16 "0x") = true /\
  Num.Number "1.500000" = 1.5%float /\ Num.Number "123.456000" = Num.ofDecimal 123456 (-3) /\
  Num.Number "1e+21" = 1e21%float.
Proof. by_running. Qed.

Example round_values :
  Num.round 2.5 = 3%float /\ Num.round (-2.5) = (-2)%float /\ Num.round 0.5 = 1%float /\
  Num.round 41.75 = 42%float /\ Num.round (Num.ofDecimal 1 300) = Num.ofDecimal 1 300 /\
  Num.round (Num.ofDecimal 8 (-1)) = 1%float.
Proof. by_running. Qed.

(** The commands of the README that the quick handlers answer. *)
Example quick_commands :
  result (getAIResponse steadyEnv "List supported chains") initial =
    Normal "Supported chains: Ethereum (ETH), Polygon (MATIC), BNB Smart Chain (BNB), Arbitrum (ETH), Base (ETH), Optimism (ETH)" /\
  result (getAIResponse steadyEnv "Show system status") initial =
    Normal "System status: server running, MCP: not connected, fallback: off" /\
  result (getAIResponse steadyEnv "Show MCP status") fallbackWorld =
    Normal "MCP status -> connected: false, fallback: true, lastError: Gemini initialization failed: API key not valid" /\
  result (getAIResponse steadyEnv "Restart MCP server") fallbackWorld =
    Normal "MCP server restarted successfully." /\
  result (getAIResponse steadyEnv "Force fallback mode") initial =
    Normal "Fallback mode activated.".
Proof. by_running. Qed.

(** *** Read-only code *)

Ltac unfold_monad :=
  unfold tryCatch, catchDefault, await, throw, messageOf, get, modify,
    mbind, M_bind, mret, M_ret in *.

Lemma readOnly_ret {S A} (a : A) : readOnly (mret a : M S A).
Proof. intros w. reflexivity. Qed.

Lemma readOnly_throw {S A} (e : thrown) : readOnly (throw e : M S A).
Proof. intros w. reflexivity. Qed.

Lemma readOnly_get {S} : readOnly (get : M S S).
Proof. intros w. reflexivity. Qed.

Lemma readOnly_await {S A} (o : outcome A) : readOnly (await o : M S A).
Proof. intros w. destruct o; reflexivity. Qed.

Lemma readOnly_messageOf {S} (e : thrown) : readOnly (messageOf e : M S (option string)).
Proof. intros w. destruct e; reflexivity. Qed.

Lemma readOnly_bind {S A B} (m : M S A) (f : A -> M S B) :
  readOnly m -> (forall a, readOnly (f a)) -> readOnly (m ≫= f).
Proof.
  intros Hm Hf w. specialize (Hm w). unfold mbind, M_bind.
  destruct (m w) as [[a|e] w']; simpl in *; subst; [apply Hf | reflexivity].
Qed.

Lemma readOnly_tryCatch {S A} (body : M S A) (handler : thrown -> M S A) :
  readOnly body -> (forall e, readOnly (handler e)) -> readOnly (tryCatch body handler).
Proof.
  intros Hb Hh w. specialize (Hb w). unfold tryCatch.
  destruct (body w) as [[a|e] w']; simpl in *; subst; [reflexivity | apply Hh].
Qed.

Lemma readOnly_catchDefault {S A} (body : M S A) (v : A) :
  readOnly body -> readOnly (catchDefault body v).
Proof. intros Hb. apply readOnly_tryCatch; [assumption | intros; apply readOnly_ret]. Qed.

Create HintDb readonly.
#[local] Hint Resolve readOnly_ret readOnly_throw readOnly_get readOnly_await
  readOnly_messageOf readOnly_catchDefault : readonly.

Ltac read_only :=
  repeat first
    [ solve [ auto with readonly ]
    | apply readOnly_bind; [ | intros ]
    | apply readOnly_tryCatch; [ | intros ]
    | match goal with
      | |- readOnly (match ?x with _ => _ end) => destruct x
      | |- readOnly (if ?x then _ else _) => destruct x
      end ].

Lemma readOnly_apiNameOf {S} (chain : string) : readOnly (apiNameOf (S := S) chain).
Proof. unfold apiNameOf. read_only. Qed.

Lemma readOnly_getGasPrice {S} (E : env) (chain : string) :
  readOnly (getGasPrice (S := S) E chain).
Proof. unfold getGasPrice. pose proof (@readOnly_apiNameOf S). read_only. Qed.

Lemma readOnly_fetchChain {S} (E : env) (chain : string) :
  readOnly (fetchChain (S := S) E chain).
Proof. unfold fetchChain. pose proof (@readOnly_apiNameOf S). read_only. Qed.

Lemma readOnly_fetchChains {S} (E : env) (chains : list string) :
  forall results, readOnly (fetchChains (S := S) E chains results).
Proof.
  induction chains as [|c rest IH]; intros results; simpl.
  - apply readOnly_ret.
  - apply readOnly_bind; [apply readOnly_fetchChain | intros; apply IH].
Qed.

Lemma readOnly_fetchWalletContext {S} (E : env) (address : string) (chains : list string) :
  readOnly (fetchWalletContext (S := S) E address chains).
Proof.
  unfold fetchWalletContext. pose proof (@readOnly_fetchChains S E chains []). read_only.
Qed.

Lemma readOnly_getGeminiResponse (E : env) (message : string) :
  readOnly (getGeminiResponse E message).
Proof.
  unfold getGeminiResponse.
  pose proof (fun a c => @readOnly_fetchWalletContext world E a c).
  read_only.
Qed.

Lemma readOnly_getStatus : readOnly getStatus.
Proof. intros w. reflexivity. Qed.

(** *** The supervisor, step by step *)

Ltac unfold_ops :=
  unfold perform, after, result, start, restart, restartBegin, startBegin, startResume,
    startHealthCheck, stopHealthCheck, enableFallbackMode, healthCheckTick,
    healthCheckPassed, healthCheckFailed, getStatus, setInterval, clearInterval, assign in *;
  unfold_monad.

(** Case analysis on everything a supervisor operation looks at. *)
Ltac by_cases w :=
  destruct w as [[c g r rc mr [h|] f ca mca le] t n];
  repeat match goal with
         | p : outcome _ |- _ => destruct p
         | e : thrown |- _ => destruct e
         end;
  unfold_ops; simpl in *.

Lemma after_tryCatch_readOnly {A} (body : M world A) (handler : thrown -> M world A) w :
  (forall e, readOnly (handler e)) -> (tryCatch body handler w).2 = (body w).2.
Proof.
  intros Hh. unfold tryCatch. destruct (body w) as [[a|e] w']; simpl; [reflexivity | apply Hh].
Qed.

Lemma after_bind_readOnly {A B} (m : M world A) (f : A -> M world B) w :
  (forall a, readOnly (f a)) -> ((m ≫= f) w).2 = (m w).2.
Proof.
  intros Hf. unfold mbind, M_bind. destruct (m w) as [[a|e] w']; simpl; [apply Hf | reflexivity].
Qed.

(** A chat turn leaves the supervisor as it was, or as a [restart()] or an
    [enableFallbackMode] leaves it: these are the only two commands of
    [getAIResponse] that touch it. *)
Lemma perform_chat (E : env) (message : string) (w : world) :
  perform (CallGetAIResponse E message) w = w \/
  (reachesRestart message = true /\
   perform (CallGetAIResponse E message) w =
   perform (CallRestart (generateContent E testRequest)) w) \/
  perform (CallGetAIResponse E message) w =
  perform (CallEnableFallbackMode "Forced via chat command") w.
Proof.
  unfold perform, after, getAIResponse, reachesRestart.
  rewrite after_tryCatch_readOnly by (intros; apply readOnly_ret).
  assert (Hgas : forall c, readOnly (catchDefault (getGasPrice (S := world) E c) 0%float))
    by (intros; apply readOnly_catchDefault, readOnly_getGasPrice).
  assert (Hother :
    let m :=
      (if includes (toLowerCase message) "system status" then
         m ← getStatus;
         mret ("System status: server running, MCP: " +:+
               (if st_isConnected m then "connected" else "not connected") +:+
               ", fallback: " +:+ (if st_fallbackMode m then "on" else "off"))
       else if includes (toLowerCase message) "mcp status" then
         m ← getStatus;
         mret ("MCP status -> connected: " +:+
               (if st_isConnected m then "true" else "false") +:+
               ", fallback: " +:+ (if st_fallbackMode m then "true" else "false") +:+
               ", lastError: " +:+ orElse (default EmptyString (st_lastError m)) "none")
       else if includes (toLowerCase message) "restart mcp" then
         ok ← catchDefault (restart (generateContent E testRequest)) false;
         mret (if (ok : bool) then "MCP server restarted successfully."
               else "Failed to restart MCP server.")
       else if includes (toLowerCase message) "force fallback" then
         enableFallbackMode "Forced via chat command";;
         mret "Fallback mode activated."
       else
         w ← get;
         if geminiModel (this w) && isConnected (this w) then getGeminiResponse E message
         else mret (getFallbackResponse message)) in
    (m w).2 = w \/
    (negb (includes (toLowerCase message) "system status") &&
     negb (includes (toLowerCase message) "mcp status") &&
     includes (toLowerCase message) "restart mcp" = true /\
     (m w).2 = (restart (generateContent E testRequest) w).2) \/
    (m w).2 = (enableFallbackMode "Forced via chat command" w).2).
  { simpl.
    destruct (includes (toLowerCase message) "system status");
      [left; pose proof readOnly_getStatus; generalize w; read_only |].
    destruct (includes (toLowerCase message) "mcp status");
      [left; pose proof readOnly_getStatus; generalize w; read_only |].
    destruct (includes (toLowerCase message) "restart mcp").
    { right; left; split; [reflexivity |].
      rewrite after_bind_readOnly by (intros; apply readOnly_ret).
      unfold catchDefault. apply after_tryCatch_readOnly. intros; apply readOnly_ret. }
    destruct (includes (toLowerCase message) "force fallback").
    { right; right. apply after_bind_readOnly. intros; apply readOnly_ret. }
    left. pose proof (readOnly_getGeminiResponse E message). generalize w. read_only. }
  destruct (type (getBlockchainContext message)); try exact Hother.
  - left. generalize w. read_only.
  - left. reflexivity.
Qed.

(** [start] and [restart] are their two halves, one after the other. *)
Lemma start_halves (probe : outcome string) (w : world) :
  start probe w = startResume probe (after startBegin w) /\
  restart probe w = startResume probe (after restartBegin w).
Proof. split; by_cases w; reflexivity. Qed.

(** The sets of timers that the operations build. *)
Ltac timer_sets :=
  rewrite ?difference_diag_L, ?difference_empty_L, ?(right_id_L ∅ (∪)); try reflexivity.

(** Consistency is kept by every step. *)
Lemma consistent_basic (a : action) (w : world) :
  match a with
  | CallGetAIResponse _ _ => True
  | _ => consistent w -> consistent (perform a w)
  end.
Proof.
  unfold consistent. destruct a; try exact I; by_cases w; auto.
Qed.

Lemma consistent_perform (a : action) (w : world) :
  consistent w -> consistent (perform a w).
Proof.
  intros Hw. destruct a as [p|p| | |reason| |E message| | |error| | |p]; 
    try (match goal with |- context [perform ?a _] => exact (consistent_basic a w Hw) end).
  destruct (perform_chat E message w) as [-> | [[_ ->] | ->]].
  - assumption.
  - exact (consistent_basic (CallRestart _) w Hw).
  - exact (consistent_basic (CallEnableFallbackMode _) w Hw).
Qed.

Lemma consistent_run (acts : list action) :
  forall w, consistent w -> consistent (run acts w).
Proof.
  induction acts as [|a rest IH]; intros w Hw; simpl; [assumption |].
  apply IH, consistent_perform, Hw.
Qed.

(** The timer table holds the supervisor's own timer and nothing else. *)
Lemma armed_basic (a : action) (w : world) :
  match a with
  | CallGetAIResponse _ _ => True
  | _ => armed w -> armed (perform a w)
  end.
Proof.
  unfold armed. destruct a; try exact I; by_cases w; intros Ht; subst; timer_sets.
Qed.

Lemma armed_perform (a : action) (w : world) : armed w -> armed (perform a w).
Proof.
  intros Hw. destruct a as [p|p| | |reason| |E message| | |error| | |p]; 
    try (match goal with |- context [perform ?a _] => exact (armed_basic a w Hw) end).
  destruct (perform_chat E message w) as [-> | [[_ ->] | ->]].
  - assumption.
  - exact (armed_basic (CallRestart _) w Hw).
  - exact (armed_basic (CallEnableFallbackMode _) w Hw).
Qed.

Lemma armed_run (acts : list action) : forall w, armed w -> armed (run acts w).
Proof.
  induction acts as [|a rest IH]; intros w Hw; simpl; [assumption |].
  apply IH, armed_perform, Hw.
Qed.

Lemma armed_initial : armed initial.
Proof. reflexivity. Qed.

Lemma armed_size (w : world) : armed w -> size (timers w) <= 1.
Proof.
  unfold armed. intros ->. destruct (healthCheckInterval (this w)).
  - rewrite size_singleton. lia.
  - rewrite size_empty. lia.
Qed.

Lemma armed_stop (w : world) : armed w -> timers (after stopHealthCheck w) = ∅.
Proof. unfold armed. by_cases w; intros ->; timer_sets. Qed.

Lemma armed_rearm (w : world) :
  armed w -> timers (after startHealthCheck w) = {[ nextHandle w ]}.
Proof. unfold armed. by_cases w; intros ->; timer_sets. Qed.

(** Fallback mode survives every step that is not a successful start. *)
Lemma sticky_basic (a : action) (w : world) :
  match a with
  | CallGetAIResponse _ _ => True
  | _ => fallbackMode (this w) = true -> startsWithSuccess a = false ->
         fallbackMode (this (perform a w)) = true
  end.
Proof.
  destruct a; try exact I; by_cases w; intros; subst; try reflexivity; discriminate.
Qed.

Lemma sticky_perform (a : action) (w : world) :
  fallbackMode (this w) = true -> startsWithSuccess a = false ->
  fallbackMode (this (perform a w)) = true.
Proof.
  intros Hw Ha. destruct a as [p|p| | |reason| |E message| | |error| | |p]; 
    try (match goal with |- context [perform ?a _] => exact (sticky_basic a w Hw Ha) end).
  destruct (perform_chat E message w) as [-> | [[Hcmd ->] | ->]].
  - assumption.
  - apply (sticky_basic (CallRestart _) w Hw).
    simpl in Ha. rewrite Hcmd in Ha. simpl in *.
    destruct (generateContent E testRequest); [discriminate | reflexivity].
  - exact (sticky_basic (CallEnableFallbackMode _) w Hw eq_refl).
Qed.

Lemma sticky_run (acts : list action) :
  forall w, fallbackMode (this w) = true ->
  forallb (fun a => negb (startsWithSuccess a)) acts = true ->
  fallbackMode (this (run acts w)) = true.
Proof.
  induction acts as [|a rest IH]; intros w Hw Hacts; simpl in *; [assumption |].
  apply andb_prop in Hacts as [Ha Hrest].
  apply IH; [| assumption].
  apply sticky_perform; [assumption |]. now apply negb_true_iff.
Qed.

(** *** The claims about the supervisor *)

(** C1: in every state the supervisor can reach from its constructed state,
    by any sequence of calls of [start], [restart], [startHealthCheck],
    [stopHealthCheck], [enableFallbackMode], [getStatus] and [getAIResponse],
    of timer ticks and of settling probes (with the two halves of [start] and
    [restart] taken apart at their [await]), [isConnected] and
    [fallbackMode] are not both true. *)
Theorem connected_excludes_fallback (acts : list action) :
  isConnected (this (run acts initial)) && fallbackMode (this (run acts initial)) = false.
Proof. apply (consistent_run acts initial). reflexivity. Qed.

(** C4: [start()] never throws: whatever the test request does and whatever
    the state, it returns a boolean.  When the test request succeeds the
    result is [true] and the state is connected and not in fallback mode;
    when it fails the result is [false], the state is in fallback mode and
    not connected, and [getStatus().lastError] is a string that is not
    empty. *)
Theorem start_returns_and_sets_flags (probe : outcome string) (w : world) :
  exists b : bool,
    result (start probe) w = Normal b /\
    match probe with
    | Resolved _ =>
        b = true /\
        isConnected (this (after (start probe) w)) = true /\
        fallbackMode (this (after (start probe) w)) = false
    | Rejected _ =>
        b = false /\
        isConnected (this (after (start probe) w)) = false /\
        fallbackMode (this (after (start probe) w)) = true /\
        exists st reason,
          result getStatus (after (start probe) w) = Normal st /\
          st_lastError st = Some reason /\ reason <> EmptyString
    end.
Proof.
  by_cases w; eexists; (split; [reflexivity |]); repeat split;
    eexists; eexists; (split; [reflexivity |]); (split; [reflexivity | discriminate]).
Qed.

(** C7: [restart()] is [stopHealthCheck()], the two resets, then [start()],
    in this order; in every reachable state the [stopHealthCheck] leaves no
    timer armed and no handle kept, so the [start] that follows begins
    without one; at most one timer is armed in every reachable state, also
    after a further [restart]; and [startHealthCheck] leaves exactly the
    new timer armed. *)
Theorem restart_stops_first_and_one_timer (acts : list action) (probe : outcome string) :
  after (restart probe) (run acts initial) =
    after (start probe)
      (after (assign (set_retryCount 0))
         (after (assign (set_isConnected false))
            (after stopHealthCheck (run acts initial)))) /\
  timers (after stopHealthCheck (run acts initial)) = ∅ /\
  healthCheckInterval (this (after stopHealthCheck (run acts initial))) = None /\
  size (timers (run acts initial)) <= 1 /\
  size (timers (after (restart probe) (run acts initial))) <= 1 /\
  timers (after startHealthCheck (run acts initial)) = {[ nextHandle (run acts initial) ]}.
Proof.
  pose proof (armed_run acts initial armed_initial) as Harmed.
  split; [| split; [| split; [| split; [| split]]]].
  - generalize (run acts initial). intros w. by_cases w; reflexivity.
  - apply armed_stop, Harmed.
  - generalize (run acts initial). intros w. by_cases w; reflexivity.
  - apply armed_size, Harmed.
  - apply armed_size. exact (armed_basic (CallRestart probe) _ Harmed).
  - apply armed_rearm, Harmed.
Qed.

(** C9: once in fallback mode, the supervisor stays in it through every
    sequence of steps none of which is a [start()] with a succeeding test
    request (called as such, through [restart()], or through the restart
    command of a chat message); and a [start()] whose test request fails
    returns [false], arms no timer and keeps none, and a failed [restart()]
    leaves no timer armed at all. *)
Theorem fallback_is_sticky (acts : list action) (w : world) :
  fallbackMode (this w) = true ->
  forallb (fun a => negb (startsWithSuccess a)) acts = true ->
  fallbackMode (this (run acts w)) = true /\
  (forall e w',
     result (start (Rejected e)) w' = Normal false /\
     timers (after (start (Rejected e)) w') = timers w' /\
     healthCheckInterval (this (after (start (Rejected e)) w')) =
       healthCheckInterval (this w') /\
     fallbackMode (this (after (start (Rejected e)) w')) = true) /\
  (forall e acts',
     timers (after (restart (Rejected e)) (run acts' initial)) = ∅ /\
     fallbackMode (this (after (restart (Rejected e)) (run acts' initial))) = true).
Proof.
  intros Hw Hacts. split; [apply sticky_run; assumption |]. split.
  - intros e w'. by_cases w'; repeat split.
  - intros e acts'.
    pose proof (armed_run acts' initial armed_initial) as Harmed. revert Harmed.
    generalize (run acts' initial). intros w'. unfold armed.
    by_cases w'; intros ->; split; timer_sets.
Qed.

Lemma fallback_is_sticky_witness :
  fallbackMode
    (this (run [TimerTick; ProbePassed; ProbeFailed (JsError "timeout"); CallGetStatus;
                CallStopHealthCheck; CallGetAIResponse steadyEnv "Show MCP status";
                CallStart (Rejected JsNullish)]
             fallbackWorld)) = true.
Proof.
  refine (proj1 (fallback_is_sticky _ fallbackWorld _ _)); reflexivity.
Defined.

(** *** Strings *)

Lemma append_empty (s : string) : EmptyString +:+ s = s.
Proof. reflexivity. Qed.

Lemma append_String (c : ascii) (a b : string) : String c a +:+ b = String c (a +:+ b).
Proof. reflexivity. Qed.

Ltac norm_append := rewrite ?append_String, ?append_empty in *.

Lemma includes_unfold (s sub : string) :
  includes s sub =
  String.prefix sub s || match s with
                         | EmptyString => false
                         | String _ t => includes t sub
                         end.
Proof. destruct s; reflexivity. Qed.

Lemma prefix_append (sub post : string) : String.prefix sub (sub +:+ post) = true.
Proof.
  induction sub as [|a sub IH]; norm_append; simpl.
  - destruct post; reflexivity.
  - destruct (ascii_dec a a); [apply IH | contradiction].
Qed.

Lemma includes_occurs (s sub : string) : occurs sub s -> includes s sub = true.
Proof.
  intros (pre & post & ->). induction pre as [|a pre IH]; norm_append.
  - rewrite includes_unfold, prefix_append. reflexivity.
  - simpl. rewrite IH. apply orb_true_r.
Qed.

Lemma prefix_occurs (sub : string) :
  forall s, String.prefix sub s = true -> exists post, s = sub +:+ post.
Proof.
  induction sub as [|a sub IH]; intros s H.
  - exists s. reflexivity.
  - destruct s as [|b s]; simpl in H; [discriminate |].
    destruct (ascii_dec a b) as [<- |]; [| discriminate].
    destruct (IH s H) as [post ->]. exists post. reflexivity.
Qed.

(** [includes] is occurrence. *)
Lemma includes_spec (s sub : string) : includes s sub = true <-> occurs sub s.
Proof.
  split; [| apply includes_occurs].
  induction s as [|c s IH]; rewrite includes_unfold; intros [H | H]%orb_prop.
  - destruct (prefix_occurs _ _ H) as [post ->]. exists EmptyString, post. reflexivity.
  - discriminate.
  - destruct (prefix_occurs _ _ H) as [post Hpost]. exists EmptyString, post. exact Hpost.
  - destruct (IH H) as (pre & post & ->). exists (String c pre), post. reflexivity.
Qed.

Lemma mapChars_append (f : ascii -> ascii) (a b : string) :
  mapChars f (a +:+ b) = mapChars f a +:+ mapChars f b.
Proof.
  induction a as [|c a IH]; simpl; norm_append; [reflexivity |].
  simpl. now rewrite IH.
Qed.

Lemma mapChars_length (f : ascii -> ascii) (s : string) :
  String.length (mapChars f s) = String.length s.
Proof. induction s as [|c s IH]; simpl; [reflexivity | now rewrite IH]. Qed.

Lemma occurs_lower (sub s : string) :
  occurs sub s -> occurs (toLowerCase sub) (toLowerCase s).
Proof.
  intros (pre & post & ->). exists (toLowerCase pre), (toLowerCase post).
  unfold toLowerCase. now rewrite !mapChars_append.
Qed.

Lemma lowerChar_hex (c : ascii) : isHexDigit c = true -> isHexDigit (lowerChar c) = true.
Proof. destruct c as [[] [] [] [] [] [] [] []]; vm_compute; auto. Qed.

Lemma allHex_lower (h : string) : allHex h = true -> allHex (toLowerCase h) = true.
Proof.
  unfold toLowerCase. induction h as [|c h IH]; simpl; [reflexivity |].
  intros [Hc Hh]%andb_prop. now rewrite (lowerChar_hex c Hc), (IH Hh).
Qed.

Lemma takeHex_append (h rest : string) :
  allHex h = true -> takeHex (String.length h) (h +:+ rest) = Some h.
Proof.
  induction h as [|c h IH]; simpl; [reflexivity |].
  intros [Hc Hh]%andb_prop. norm_append. now rewrite Hc, (IH Hh).
Qed.

Lemma takeHex_sound (n : nat) :
  forall s h, takeHex n s = Some h ->
  h = substring 0 n s /\ String.length h = n /\ allHex h = true.
Proof.
  induction n as [|n IH]; intros s h; simpl.
  - intros [= <-]. destruct s; auto.
  - destruct s as [|c s]; [discriminate |].
    destruct (isHexDigit c) eqn:Hc; [| discriminate].
    destruct (takeHex n s) as [h'|] eqn:Hh; [| discriminate].
    intros [= <-]. destruct (IH _ _ Hh) as (-> & Hlen & Hhex).
    simpl. rewrite Hc, Hlen. auto.
Qed.

Lemma addressAt_sound (s a : string) :
  addressAt s = Some a -> a = substring 0 42 s /\ addressText a.
Proof.
  unfold addressAt.
  destruct s as [|c0 [|c1 t]]; try discriminate;
    try (destruct c0 as [[] [] [] [] [] [] [] []]; discriminate).
  destruct (ascii_dec c0 "0") as [-> |]; [| destruct c0 as [[] [] [] [] [] [] [] []]; congruence].
  destruct (ascii_dec c1 "x") as [-> |]; [| destruct c1 as [[] [] [] [] [] [] [] []]; congruence].
  destruct (takeHex 40 t) as [h|] eqn:Hh; [| discriminate].
  intros [= <-]. destruct (takeHex_sound _ _ _ Hh) as (-> & Hlen & Hhex).
  split; [reflexivity |]. eexists. split; [reflexivity |]. split; assumption.
Qed.

Lemma addressAt_0x (t : string) :
  addressAt (String "0" (String "x" t)) =
  match takeHex 40 t with
  | Some h => Some (String "0" (String "x" h))
  | None => None
  end.
Proof. reflexivity. Qed.

Lemma addressAt_lower (a rest : string) :
  addressText a -> addressAt (toLowerCase a +:+ rest) = Some (toLowerCase a).
Proof.
  intros (h & -> & Hlen & Hhex).
  change (toLowerCase ("0x" +:+ h)) with (String "0" (String "x" (toLowerCase h))).
  norm_append. rewrite addressAt_0x.
  assert (Hlen' : String.length (toLowerCase h) = 40%nat)
    by (unfold toLowerCase; rewrite mapChars_length; exact Hlen).
  rewrite <- Hlen'.
  now rewrite (takeHex_append _ rest (allHex_lower h Hhex)).
Qed.

Lemma matchAddress_unfold (s : string) :
  matchAddress s =
  match addressAt s with
  | Some a => Some (O, a)
  | None =>
      match s with
      | EmptyString => None
      | String _ t =>
          match matchAddress t with
          | Some (i, a) => Some (S i, a)
          | None => None
          end
      end
  end.
Proof. destruct s; reflexivity. Qed.

Lemma matchAddress_after (pre s a : string) :
  addressAt s = Some a -> exists i b, matchAddress (pre +:+ s) = Some (i, b).
Proof.
  intros Ha. induction pre as [|c pre (i & b & IH)].
  - exists O, a. norm_append. now rewrite matchAddress_unfold, Ha.
  - norm_append. rewrite matchAddress_unfold.
    destruct (addressAt (String c (pre +:+ s))) as [a'|]; [now eauto |].
    rewrite IH. eauto.
Qed.

Lemma containsAddress_match (message : string) :
  containsAddress message ->
  exists i a, matchAddress (toLowerCase message) = Some (i, a).
Proof.
  intros (pre & a & post & -> & Ha). unfold toLowerCase.
  rewrite !mapChars_append.
  apply (matchAddress_after _ _ (toLowerCase a)), addressAt_lower, Ha.
Qed.

(** The match is the leftmost one. *)
Lemma matchAddress_sound (s : string) :
  forall i a, matchAddress s = Some (i, a) ->
  addressAt (from i s) = Some a /\
  forall j, (j < i)%nat -> addressAt (from j s) = None.
Proof.
  induction s as [|c s IH]; intros i a; rewrite matchAddress_unfold.
  - destruct (addressAt EmptyString) eqn:H0; [| discriminate].
    intros [= <- <-]. split; [assumption | lia].
  - destruct (addressAt (String c s)) as [a'|] eqn:H0.
    + intros [= <- <-]. split; [assumption | lia].
    + destruct (matchAddress s) as [[i' a']|]; [| discriminate].
      intros [= <- <-]. destruct (IH _ _ eq_refl) as [Hat Hbefore].
      split; [exact Hat |].
      intros [|j] Hj; [exact H0 | apply Hbefore; lia].
Qed.

Lemma substring_from (n : nat) : forall i s, substring i n s = substring 0 n (from i s).
Proof.
  induction i as [|i IH]; intros s; [reflexivity |].
  destruct s as [|c s]; simpl; [destruct n; reflexivity | apply IH].
Qed.

Lemma substring_mapChars (f : ascii -> ascii) :
  forall s i n, substring i n (mapChars f s) = mapChars f (substring i n s).
Proof.
  induction s as [|c s IH]; intros i n.
  - destruct i, n; reflexivity.
  - destruct i as [|i]; simpl.
    + destruct n as [|n]; [reflexivity |]. simpl. now rewrite IH.
    + apply IH.
Qed.

(** *** The claims about the classifier *)

Ltac first_keyword :=
  match goal with
  | |- context [if ?c then _ else _] =>
      match c with
      | context [includes ?s ?k] => destruct (includes s k) eqn:?; simpl
      end
  end.

(** C3, as the code has it: for every message that contains an address the
    classifier sets [multiChain], and sets it to [true] exactly when the
    lower-cased message contains one of the eight multi-chain phrases, or the
    keyword that goes with its category: [portfolio] in the portfolio
    category, [nft] in the NFT category, [wallet] in the wallet (balance)
    category.  In particular a wallet-category message with none of the
    phrases and without the word [wallet] has [multiChain] false. *)
Theorem multichain_flag (message : string) :
  containsAddress message ->
  exists b : bool,
    multiChain (getBlockchainContext message) = Some b /\
    (b = true <->
     isMultiChain (toLowerCase message) = true \/
     (type (getBlockchainContext message) = portfolio /\
      includes (toLowerCase message) "portfolio" = true) \/
     (type (getBlockchainContext message) = nft /\
      includes (toLowerCase message) "nft" = true) \/
     (type (getBlockchainContext message) = wallet /\
      includes (toLowerCase message) "wallet" = true)) /\
    (type (getBlockchainContext message) = wallet ->
     isMultiChain (toLowerCase message) = false ->
     includes (toLowerCase message) "wallet" = false ->
     b = false).
Proof.
  intros Hc. destruct (containsAddress_match _ Hc) as (i & a & Hm).
  unfold getBlockchainContext. rewrite Hm.
  set (lower := toLowerCase message) in *.
  set (M := isMultiChain lower). clearbody M.
  repeat first_keyword;
    (eexists; split; [reflexivity |]);
    destruct M; simpl; intuition congruence.
Qed.

Lemma multichain_flag_witness :
  exists b : bool,
    multiChain (getBlockchainContext balanceMessage) = Some b /\
    (b = true <->
     isMultiChain (toLowerCase balanceMessage) = true \/
     (type (getBlockchainContext balanceMessage) = portfolio /\
      includes (toLowerCase balanceMessage) "portfolio" = true) \/
     (type (getBlockchainContext balanceMessage) = nft /\
      includes (toLowerCase balanceMessage) "nft" = true) \/
     (type (getBlockchainContext balanceMessage) = wallet /\
      includes (toLowerCase balanceMessage) "wallet" = true)) /\
    (type (getBlockchainContext balanceMessage) = wallet ->
     isMultiChain (toLowerCase balanceMessage) = false ->
     includes (toLowerCase balanceMessage) "wallet" = false ->
     b = false).
Proof.
  apply (multichain_flag balanceMessage).
  exists "balance of ", zeroAddress, EmptyString. split; [reflexivity |].
  exists "0000000000000000000000000000000000000000". repeat split; reflexivity.
Defined.

(** C3 as it is worded fails: a message of the wallet (balance) category
    with none of the multi-chain phrases, here the word [wallet] and an
    address, has [multiChain] true. *)
Lemma wallet_keyword_sets_multichain :
  containsAddress walletMessage /\
  type (getBlockchainContext walletMessage) = wallet /\
  isMultiChain (toLowerCase walletMessage) = false /\
  multiChain (getBlockchainContext walletMessage) = Some true.
Proof.
  split; [| repeat split; reflexivity].
  exists "wallet ", zeroAddress, EmptyString. split; [reflexivity |].
  exists "0000000000000000000000000000000000000000". repeat split; reflexivity.
Qed.

(** C5, as the code has it: for every message that contains an address and
    the word [portfolio], the classifier answers with the category
    [portfolio], [multiChain] true, and as [address] the leftmost address of
    the lower-cased message, which is the lower case of the 42 characters at
    that place of the message. *)
Theorem portfolio_with_address (message : string) :
  containsAddress message ->
  occurs "portfolio" message ->
  exists i a,
    matchAddress (toLowerCase message) = Some (i, a) /\
    (forall j, (j < i)%nat -> addressAt (from j (toLowerCase message)) = None) /\
    a = toLowerCase (substring i 42 message) /\
    addressText a /\
    getBlockchainContext message =
      Context true (Some "ethereum") portfolio (Some a) (Some true).
Proof.
  intros Hc Hp. destruct (containsAddress_match _ Hc) as (i & a & Hm).
  exists i, a. destruct (matchAddress_sound _ _ _ Hm) as [Hat Hbefore].
  destruct (addressAt_sound _ _ Hat) as [Hsub Htext].
  split; [exact Hm |]. split; [exact Hbefore |]. split; [| split; [exact Htext |]].
  - rewrite Hsub, <- substring_from. apply substring_mapChars.
  - unfold getBlockchainContext. rewrite Hm.
    rewrite (includes_occurs _ _ (occurs_lower _ _ Hp : occurs "portfolio" _)).
    simpl. now rewrite orb_true_r.
Qed.

Lemma portfolio_with_address_witness :
  exists i a,
    matchAddress (toLowerCase portfolioMessage) = Some (i, a) /\
    (forall j, (j < i)%nat -> addressAt (from j (toLowerCase portfolioMessage)) = None) /\
    a = toLowerCase (substring i 42 portfolioMessage) /\
    addressText a /\
    getBlockchainContext portfolioMessage =
      Context true (Some "ethereum") portfolio (Some a) (Some true).
Proof.
  apply (portfolio_with_address portfolioMessage).
  - exists "portfolio ", upperAddress, EmptyString. split; [reflexivity |].
    exists "ABCDEF0123456789ABCDEF0123456789ABCDEF01". repeat split; reflexivity.
  - exists EmptyString, (" " +:+ upperAddress). reflexivity.
Defined.

(** C5 as it is worded fails: the address of this message is written in
    upper case, and the [address] the classifier returns is not that text. *)
Lemma portfolio_address_is_lowered :
  containsAddress portfolioMessage /\
  occurs "portfolio" portfolioMessage /\
  occurs upperAddress portfolioMessage /\
  addressText upperAddress /\
  type (getBlockchainContext portfolioMessage) = portfolio /\
  address (getBlockchainContext portfolioMessage) <> Some upperAddress.
Proof.
  assert (Ha : addressText upperAddress).
  { exists "ABCDEF0123456789ABCDEF0123456789ABCDEF01". repeat split; reflexivity. }
  split; [| split; [| split; [| split; [exact Ha | split; [reflexivity | discriminate]]]]].
  - exists "portfolio ", upperAddress, EmptyString. split; [reflexivity | exact Ha].
  - exists EmptyString, (" " +:+ upperAddress). reflexivity.
  - exists "portfolio ", EmptyString. reflexivity.
Qed.

(** C2, evaluated on the code: the message names Ethereum, so the classifier
    answers with the type [chain] and not [gas]; the gas handler of
    [getAIResponse] is passed over, the gas price is never asked for, and the
    response is the model's text when the supervisor is connected and the
    canned default text otherwise, which has neither the price nor the
    chain name in upper case.  The same request without the chain name
    does reach the handler. *)
Theorem gas_query_naming_ethereum (E : env) (w : world) :
  type (getBlockchainContext gasOnEthereum) = chain /\
  result (getAIResponse E gasOnEthereum) w =
    Normal (if geminiModel (this w) && isConnected (this w)
            then match generateContent E
                         (promptFor gasOnEthereum (getBlockchainContext gasOnEthereum)
                            (noteJSON "no summary available")) with
                 | Resolved text => text
                 | Rejected _ => defaultText gasOnEthereum
                 end
            else defaultText gasOnEthereum) /\
  includes (defaultText gasOnEthereum) "42 Gwei" = false /\
  includes (defaultText gasOnEthereum) "ETHEREUM" = false /\
  result (getGasPrice steadyEnv "ethereum") w = Normal 42%float /\
  result (getAIResponse steadyEnv "Show gas price") w =
    Normal "⛽ Gas price on ETHEREUM: ~42 Gwei (estimate)".
Proof.
  split; [reflexivity |]. split; [| repeat split; reflexivity].
  unfold result, getAIResponse, getGeminiResponse.
  change (getBlockchainContext gasOnEthereum)
    with (Context true (Some "ethereum") chain None None).
  change (toLowerCase gasOnEthereum) with "show gas price on ethereum".
  change (getFallbackResponse gasOnEthereum) with (defaultText gasOnEthereum).
  cbn [type].
  repeat match goal with
         | |- context [includes ?s ?k] =>
             let b := eval vm_compute in (includes s k) in
             change (includes s k) with b
         end.
  unfold_monad. cbn [type].
  destruct w as [[c g r rc mr h f ca mca le] t n]. cbn [this geminiModel isConnected].
  destruct g, c; cbn [andb]; try reflexivity.
  destruct (generateContent E _); reflexivity.
Qed.

(** *** The wallet fetch and its summary *)

Lemma fetchChain_resolved {S} (E : env) (c : string) (cfg : chainConfig)
      (r : response string) (w : S) :
  property c CHAIN_CONFIGS = Some cfg ->
  balanceReply E c = Resolved r ->
  exists n t, fetchChain E c w = (Normal (ChainData c n t), w).
Proof.
  intros Hc Hr. unfold fetchChain, apiNameOf. rewrite Hc, Hr. unfold_monad.
  destruct (tokensReply E _) as [tr|te]; eauto.
Qed.

Lemma fetchChain_rejected {S} (E : env) (c : string) (cfg : chainConfig)
      (e : thrown) (msg : option string) (w : S) :
  property c CHAIN_CONFIGS = Some cfg ->
  balanceReply E c = Rejected e ->
  readable e = Some msg ->
  fetchChain E c w = (Normal (ChainError c msg), w).
Proof.
  intros Hc Hr He. unfold fetchChain, apiNameOf. rewrite Hc, Hr. unfold_monad.
  destruct e; simpl in He; inversion He; reflexivity.
Qed.

Lemma fetchChains_each {S} (E : env) (w : S) (chains : list string) :
  forall rs acc,
  Forall2 (fun c r => fetchChain E c w = (Normal r, w)) chains rs ->
  fetchChains E chains acc w = (Normal (acc ++ rs)%list, w).
Proof.
  induction chains as [|c rest IH]; intros rs acc Hrs; inversion Hrs; subst; simpl.
  - now rewrite app_nil_r.
  - unfold mbind, M_bind. match goal with H : fetchChain _ _ _ = _ |- _ => rewrite H end.
    rewrite (IH _ _ ltac:(eassumption)). now rewrite <- app_assoc.
Qed.

Lemma fetchWalletContext_each {S} (E : env) (address : string) (w : S)
      (chains : list string) (rs : list chainResult) :
  Forall2 (fun c r => fetchChain E c w = (Normal r, w)) chains rs ->
  fetchWalletContext E address chains w = (Normal (FetchedChains address rs), w).
Proof.
  intros Hrs. unfold fetchWalletContext, tryCatch, mbind, M_bind.
  now rewrite (fetchChains_each E w chains rs [] Hrs).
Qed.

Lemma Forall2_choice {A B} (P : A -> B -> Prop) (l : list A) :
  (forall a, In a l -> exists b, P a b) -> exists bs, Forall2 P l bs.
Proof.
  induction l as [|a l IH]; intros H.
  - exists []. constructor.
  - destruct (H a (or_introl eq_refl)) as [b Hb].
    destruct IH as [bs Hbs]; [intros; apply H; now right |].
    exists (b :: bs). now constructor.
Qed.

Lemma property_setProperty_eq {A} (k : string) (v : A) (o : list (string * A)) :
  property k (setProperty k v o) = Some v.
Proof.
  induction o as [|[k' v'] o IH]; simpl.
  - now rewrite String.eqb_refl.
  - destruct (String.eqb k k') eqn:Hk; simpl; rewrite ?String.eqb_refl, ?Hk; auto.
Qed.

Lemma property_setProperty_ne {A} (k k' : string) (v : A) (o : list (string * A)) :
  k <> k' -> property k' (setProperty k v o) = property k' o.
Proof.
  intros Hne. induction o as [|[k0 v0] o IH]; simpl.
  - destruct (String.eqb k' k) eqn:Hk; [apply String.eqb_eq in Hk; congruence | reflexivity].
  - destruct (String.eqb k k0) eqn:Hk; simpl.
    + apply String.eqb_eq in Hk. subst k0.
      destruct (String.eqb k' k) eqn:Hk'; [apply String.eqb_eq in Hk'; congruence | reflexivity].
    + now rewrite IH.
Qed.

Lemma summarize_miss (k : string) (l : list chainResult) :
  forall acc, ~ In k (map chainOf l) ->
  property k (fold_left summarizeStep l acc) = property k acc.
Proof.
  induction l as [|x l IH]; intros acc Hk; simpl; [reflexivity |].
  simpl in Hk. rewrite IH by tauto. unfold summarizeStep.
  destruct (nonEmpty (chainOf x)); [| reflexivity].
  apply property_setProperty_ne. tauto.
Qed.

Lemma summarize_error_entry (c : string) (err : option string) :
  summarizeChain (ChainError c err) = ChainSummary (toUpperCase c) 0%float 0.
Proof. reflexivity. Qed.

(** C6: when, of the six chains of a multi-chain fetch, the balance request
    of exactly one is rejected (with a value whose [message] can be read),
    [fetchWalletContext] does not throw and leaves the state alone; its
    [chains] has one entry per chain, in order, each being what the fetch of
    that chain alone gives; the entry of the failing chain is the chain with
    an [error] and nothing else, the five others carry their data.  (A
    failing token-balance request is caught on the spot, line 434, and
    counts as an empty token list.) *)
Theorem one_failing_chain {S} (E : env) (address failing : string) (e : thrown)
        (msg : option string) (w : S) :
  In failing allChains ->
  balanceReply E failing = Rejected e ->
  readable e = Some msg ->
  (forall c, In c allChains -> c <> failing -> exists r, balanceReply E c = Resolved r) ->
  exists results,
    fetchWalletContext E address allChains w = (Normal (FetchedChains address results), w) /\
    map chainOf results = allChains /\
    Forall2 (fun c r => fetchChain E c w = (Normal r, w)) allChains results /\
    (forall r, In r results ->
       if String.eqb (chainOf r) failing then r = ChainError failing msg
       else isChainData r = true) /\
    length (List.filter isChainData results) = 5%nat /\
    List.filter isChainError results = [ChainError failing msg].
Proof.
  intros Hin Hrej Hmsg Hothers.
  assert (Heach : forall c, In c allChains -> exists r,
            fetchChain E c w = (Normal r, w) /\ chainOf r = c /\
            (if String.eqb c failing then r = ChainError failing msg
             else isChainData r = true)).
  { intros c Hc.
    assert (Hcfg : exists cfg, property c CHAIN_CONFIGS = Some cfg)
      by (simpl in Hc; repeat destruct Hc as [<- | Hc]; try contradiction; eexists; reflexivity).
    destruct Hcfg as [cfg Hcfg].
    destruct (String.eqb c failing) eqn:Hcf.
    - apply String.eqb_eq in Hcf. subst c. exists (ChainError failing msg).
      split; [eapply fetchChain_rejected; eassumption | auto].
    - apply String.eqb_neq in Hcf. destruct (Hothers c Hc Hcf) as [r Hr].
      destruct (fetchChain_resolved E c cfg r w Hcfg Hr) as (n & t & Hf).
      exists (ChainData c n t). auto. }
  destruct (Forall2_choice _ _ Heach) as [results Hres].
  exists results.
  assert (Hfetch : Forall2 (fun c r => fetchChain E c w = (Normal r, w)) allChains results)
    by (eapply Forall2_impl; [exact Hres | intros ? ? (? & _); assumption]).
  split; [apply fetchWalletContext_each, Hfetch |].
  split; [| split; [exact Hfetch |]].
  { clear -Hres. induction Hres as [|c r cs rs (_ & Hc & _) _ IH]; simpl; congruence. }
  unfold allChains in Hres, Hin.
  repeat match goal with
         | H : Forall2 _ (_ :: _) _ |- _ => inversion H; clear H; subst
         | H : Forall2 _ [] _ |- _ => inversion H; clear H; subst
         end.
  repeat match goal with
         | H : _ /\ _ |- _ => destruct H
         end.
  simpl in Hin.
  repeat destruct Hin as [<- | Hin]; try contradiction;
    simpl in *;
    repeat match goal with
           | H : isChainData ?r = true |- _ => destruct r; [clear H | discriminate H]
           end;
    subst; simpl in *; subst;
    (split; [| split; reflexivity]);
    intros r Hr; repeat destruct Hr as [<- | Hr]; try contradiction; reflexivity.
Qed.

Lemma one_failing_chain_witness :
  exists results,
    fetchWalletContext (failingOn steadyEnv "polygon") zeroAddress allChains initial =
      (Normal (FetchedChains zeroAddress results), initial) /\
    map chainOf results = allChains /\
    Forall2 (fun c r => fetchChain (failingOn steadyEnv "polygon") c initial = (Normal r, initial))
      allChains results /\
    (forall r, In r results ->
       if String.eqb (chainOf r) "polygon"
       then r = ChainError "polygon" (Some "Request failed with status code 500")
       else isChainData r = true) /\
    length (List.filter isChainData results) = 5%nat /\
    List.filter isChainError results =
      [ChainError "polygon" (Some "Request failed with status code 500")].
Proof.
  apply (one_failing_chain (failingOn steadyEnv "polygon") zeroAddress "polygon"
           (JsError "Request failed with status code 500")).
  - right; left; reflexivity.
  - reflexivity.
  - reflexivity.
  - intros c Hc Hne. simpl in Hc.
    repeat destruct Hc as [<- | Hc]; try contradiction; eexists; reflexivity.
Defined.

(** C8, as the code has it: a balance of 1500000000000000000 wei on a chain
    of 18 decimals is shown by the wallet route as the text [1.500000], six
    decimals with the zeros kept; in the summary the same six-decimal text is
    turned back into a Number, so [nativeApprox] is the number 1.5 and is
    written [1.5] in the JSON of the summary. *)
Theorem native_balance_display :
  decimals <$> property "ethereum" CHAIN_CONFIGS = Some 18%Z /\
  Num.parseInt16 oneAndAHalf = 1500000000000000000%float /\
  balanceInEth (Some oneAndAHalf) 18 = "1.500000" /\
  Num.toFixed 6 (wei (Native (Num.parseInt16 oneAndAHalf) "ETH") / 1e18)%float = "1.500000" /\
  nativeApprox (summarizeChain oneAndAHalfEntry) = 1.5%float /\
  Num.toJSON (nativeApprox (summarizeChain oneAndAHalfEntry)) = "1.5" /\
  chainEntry "ethereum" (summaryOf steadyEnv zeroAddress) =
    Some (ChainSummary "ETH" 1.5%float 0) /\
  includes (summaryJSON (summarizeWalletCounts (FetchedChains zeroAddress [oneAndAHalfEntry])))
    (quote "nativeApprox" +:+ ":1.5,") = true.
Proof. by_running. Qed.

(** C8 as it is worded fails for the summary: what [nativeApprox] shows is
    not the six-decimal text. *)
Lemma native_approx_drops_zeros :
  ~ (balanceInEth (Some oneAndAHalf) 18 = "1.500000" /\
     Num.toJSON (nativeApprox (summarizeChain oneAndAHalfEntry)) = "1.500000").
Proof. intros [_ H]. vm_compute in H. discriminate H. Qed.

(** C10, as the code has it: an entry with an [error], of a chain whose name
    is not empty and is the name of no other entry, gets an entry in the
    summary with [nativeApprox] 0 and [tokenCount] 0, the same two values as
    a chain that holds nothing; its [nativeSymbol] is the chain name in upper
    case. *)
Theorem errored_chain_summary (address : string) (chains : list chainResult)
        (c : string) (err : option string) :
  In (ChainError c err) chains ->
  c <> EmptyString ->
  List.NoDup (map chainOf chains) ->
  exists entries,
    summarizeWalletCounts (FetchedChains address chains) = Summary address entries /\
    property c entries = Some (ChainSummary (toUpperCase c) 0%float 0) /\
    forall sym,
      nativeApprox (summarizeChain (ChainData c (Native 0%float sym) (TokenArray []))) = 0%float /\
      tokenCount (summarizeChain (ChainData c (Native 0%float sym) (TokenArray []))) = 0%nat.
Proof.
  intros Hin Hc Hnodup. eexists. split; [reflexivity |]. split; [| split; reflexivity].
  destruct (in_split _ _ Hin) as (l1 & l2 & ->).
  rewrite map_app in Hnodup. simpl in Hnodup.
  apply NoDup_remove_2 in Hnodup.
  rewrite fold_left_app. simpl.
  rewrite summarize_miss by (intros H; apply Hnodup, in_or_app; now right).
  unfold summarizeStep at 1. simpl chainOf.
  destruct c as [|c0 c']; [contradiction |]. simpl nonEmpty. cbv iota.
  rewrite property_setProperty_eq. reflexivity.
Qed.

Lemma errored_chain_summary_witness :
  exists entries,
    summarizeWalletCounts
      (FetchedChains zeroAddress
         [oneAndAHalfEntry; ChainError "polygon" (Some "Request failed with status code 500")]) =
      Summary zeroAddress entries /\
    property "polygon" entries = Some (ChainSummary (toUpperCase "polygon") 0%float 0) /\
    forall sym,
      nativeApprox (summarizeChain (ChainData "polygon" (Native 0%float sym) (TokenArray []))) =
        0%float /\
      tokenCount (summarizeChain (ChainData "polygon" (Native 0%float sym) (TokenArray []))) =
        0%nat.
Proof.
  apply (errored_chain_summary zeroAddress _ "polygon"
           (Some "Request failed with status code 500")).
  - right; left; reflexivity.
  - discriminate.
  - repeat constructor; simpl; intros H; repeat destruct H as [H | H]; discriminate || contradiction.
Defined.

(** C10 as it is worded fails: the summary tells a chain whose fetch failed
    from one that holds nothing.  With every balance at zero and no tokens,
    the entry of Polygon reads MATIC when the chain answered and POLYGON
    when its request failed. *)
Lemma errored_chain_is_told_apart :
  summaryOf (failingOn emptyEnv "polygon") zeroAddress <> summaryOf emptyEnv zeroAddress /\
  chainEntry "polygon" (summaryOf (failingOn emptyEnv "polygon") zeroAddress) =
    Some (ChainSummary "POLYGON" 0%float 0) /\
  chainEntry "polygon" (summaryOf emptyEnv zeroAddress) =
    Some (ChainSummary "MATIC" 0%float 0).
Proof.
  split; [| split; vm_compute; reflexivity].
  intros H. apply (f_equal (chainEntry "polygon")) in H. vm_compute in H. discriminate H.
Qed.

(** ** More of the supervisor *)

(** An invariant of every step but a chat turn is an invariant of every
    step, since a chat turn is no step, a [restart()] or an
    [enableFallbackMode]. *)
Lemma invariant_perform (P : world -> Prop) :
  (forall a w, match a with
               | CallGetAIResponse _ _ => True
               | _ => P w -> P (perform a w)
               end) ->
  forall a w, P w -> P (perform a w).
Proof.
  intros Hbasic a w Hw.
  destruct a as [p|p| | |reason| |E message| | |error| | |p];
    try (match goal with |- context [perform ?a _] => exact (Hbasic a w Hw) end).
  destruct (perform_chat E message w) as [-> | [[_ ->] | ->]].
  - assumption.
  - exact (Hbasic (CallRestart _) w Hw).
  - exact (Hbasic (CallEnableFallbackMode _) w Hw).
Qed.

Lemma invariant_run (P : world -> Prop) :
  (forall a w, match a with
               | CallGetAIResponse _ _ => True
               | _ => P w -> P (perform a w)
               end) ->
  forall acts w, P w -> P (run acts w).
Proof.
  intros Hbasic acts. induction acts as [|a rest IH]; intros w Hw; simpl; [assumption |].
  apply IH, invariant_perform; assumption.
Qed.

(** X1: [enableFallbackMode] is idempotent, the last reason wins: two calls
    in a row leave the state of the second call alone.  From any state it
    returns without throwing, leaves the supervisor disconnected and in
    fallback mode with [lastError] the reason, and touches neither the timer
    nor the model client. *)
Theorem enableFallbackMode_last_wins (r1 r2 : string) (w : world) :
  after (enableFallbackMode r2) (after (enableFallbackMode r1) w) =
    after (enableFallbackMode r2) w /\
  result (enableFallbackMode r2) w = Normal tt /\
  isConnected (this (after (enableFallbackMode r2) w)) = false /\
  fallbackMode (this (after (enableFallbackMode r2) w)) = true /\
  lastError (this (after (enableFallbackMode r2) w)) = Some r2 /\
  timers (after (enableFallbackMode r2) w) = timers w /\
  healthCheckInterval (this (after (enableFallbackMode r2) w)) = healthCheckInterval (this w) /\
  geminiModel (this (after (enableFallbackMode r2) w)) = geminiModel (this w).
Proof. by_cases w; repeat split. Qed.

(** X2: the retry and attempt counters are never used: in every reachable
    state [retryCount], [connectionAttempts] and [requestId] are 0 and
    [maxRetries] and [maxConnectionAttempts] are 3 and 20, as the constructor
    set them. *)
Theorem counters_never_move (acts : list action) :
  retryCount (this (run acts initial)) = 0%Z /\
  connectionAttempts (this (run acts initial)) = 0%Z /\
  requestId (this (run acts initial)) = 0%Z /\
  maxRetries (this (run acts initial)) = 3%Z /\
  maxConnectionAttempts (this (run acts initial)) = 20%Z.
Proof.
  apply (invariant_run
           (fun w => retryCount (this w) = 0%Z /\ connectionAttempts (this w) = 0%Z /\
                     requestId (this w) = 0%Z /\ maxRetries (this w) = 3%Z /\
                     maxConnectionAttempts (this w) = 20%Z));
    [| repeat split].
  intros a w. destruct a; try exact I; by_cases w; intros (? & ? & ? & ? & ?); auto.
Qed.

(** X3: every [start()], also one whose test request fails, leaves the
    model client set ([hasGeminiModel] true), and no step ever unsets it: the
    test [this.geminiModel && this.isConnected] of [getAIResponse] is decided
    by [isConnected] alone once [start] has been called. *)
Theorem model_client_stays_set (probe : outcome string) (acts : list action) (w : world) :
  geminiModel (this (after (start probe) w)) = true /\
  geminiModel (this (after (restart probe) w)) = true /\
  geminiModel (this (run acts (after (start probe) w))) = true /\
  exists st, result getStatus (run acts (after (start probe) w)) = Normal st /\
             st_hasGeminiModel st = true.
Proof.
  assert (Hkeep : forall acts w, geminiModel (this w) = true ->
                                 geminiModel (this (run acts w)) = true).
  { apply (invariant_run (fun w => geminiModel (this w) = true)).
    intros a w0. destruct a; try exact I; by_cases w0; auto. }
  assert (Hs : geminiModel (this (after (start probe) w)) = true) by (by_cases w; reflexivity).
  split; [exact Hs |]. split; [by_cases w; reflexivity |].
  split; [apply Hkeep, Hs |].
  eexists. split; [reflexivity |]. simpl. apply Hkeep, Hs.
Qed.

(** X4: [lastError] is only ever written: in every reachable state in
    fallback mode there is one recorded, and once one is recorded no step
    clears it.  A [start()] whose test request succeeds leaves it as it
    was, so the status keeps showing the error of an earlier failure after
    the connection is back. *)
Theorem lastError_is_never_cleared (acts : list action) (w : world) (text : string) :
  (fallbackMode (this (run acts initial)) = true ->
   is_Some (lastError (this (run acts initial)))) /\
  (is_Some (lastError (this w)) -> is_Some (lastError (this (run acts w)))) /\
  lastError (this (after (start (Resolved text)) w)) = lastError (this w) /\
  lastError (this (after (restart (Resolved text)) w)) = lastError (this w).
Proof.
  split; [| split; [| split]].
  - apply (invariant_run
             (fun w => fallbackMode (this w) = true -> is_Some (lastError (this w))));
      [| discriminate].
    intros a w0. destruct a; try exact I; by_cases w0; intros H; eauto; try discriminate.
  - apply (invariant_run (fun w => is_Some (lastError (this w)))).
    intros a w0. destruct a; try exact I; by_cases w0; eauto.
  - by_cases w; reflexivity.
  - by_cases w; reflexivity.
Qed.

(** X5: when a health-check probe fails with an error whose message can be
    read, the supervisor goes to fallback mode with the reason
    [Health check failed: ] and the message, and the timer stays armed as it
    was: probes go on.  A probe that passes changes nothing, in fallback mode
    too, and a tick only reads the state.  A probe rejected with [null]
    throws out of its callback and changes nothing. *)
Theorem health_check_effects (error : thrown) (msg : option string) (w : world) :
  readable error = Some msg ->
  result (healthCheckFailed error) w = Normal tt /\
  isConnected (this (after (healthCheckFailed error) w)) = false /\
  fallbackMode (this (after (healthCheckFailed error) w)) = true /\
  lastError (this (after (healthCheckFailed error) w)) =
    Some ("Health check failed: " +:+ show msg) /\
  timers (after (healthCheckFailed error) w) = timers w /\
  healthCheckInterval (this (after (healthCheckFailed error) w)) =
    healthCheckInterval (this w) /\
  after healthCheckPassed w = w /\
  healthCheckTick w = (Normal (geminiModel (this w)), w) /\
  healthCheckFailed JsNullish w = (Throw (typeErrorReading "message"), w).
Proof.
  intros Hmsg. destruct error; simpl in Hmsg; inversion Hmsg; subst;
    destruct w as [[c g r rc mr h f ca mca le] t n]; repeat split.
Qed.

Lemma health_check_effects_witness :
  lastError (this (after (healthCheckFailed (JsError "fetch failed"))
                     (after (start (Resolved "yes")) initial))) =
    Some "Health check failed: fetch failed" /\
  timers (after (healthCheckFailed (JsError "fetch failed"))
            (after (start (Resolved "yes")) initial)) =
    timers (after (start (Resolved "yes")) initial).
Proof.
  pose proof (health_check_effects (JsError "fetch failed") (Some "fetch failed")
                (after (start (Resolved "yes")) initial) eq_refl) as H.
  split; [apply H | apply H].
Defined.

(** ** More of the classifier *)

Lemma append_assoc (a b c : string) : (a +:+ b) +:+ c = a +:+ (b +:+ c).
Proof. induction a as [|x a IH]; norm_append; [reflexivity | now rewrite IH]. Qed.

Lemma occurs_trans (a b s : string) : occurs a b -> occurs b s -> occurs a s.
Proof.
  intros (p' & q' & ->) (p & q & ->). exists (p +:+ p'), (q' +:+ q).
  now rewrite !append_assoc.
Qed.

Lemma includes_weaken (s a b : string) :
  occurs a b -> includes s b = true -> includes s a = true.
Proof.
  intros Hab Hb. apply includes_spec. apply (occurs_trans a b s Hab).
  now apply includes_spec.
Qed.

Lemma orb_absorb (a b : bool) : (a = true -> b = true) -> a || b = b.
Proof. destruct a, b; intros H; try reflexivity. now discriminate H. Qed.

Lemma orb_absorb_r (a b : bool) : (b = true -> a = true) -> a || b = a.
Proof. destruct a, b; intros H; try reflexivity. now discriminate H. Qed.

Lemma lowerChar_idem (c : ascii) : lowerChar (lowerChar c) = lowerChar c.
Proof. destruct c as [[] [] [] [] [] [] [] []]; reflexivity. Qed.


Lemma toLowerCase_idem (s : string) : toLowerCase (toLowerCase s) = toLowerCase s.
Proof.
  unfold toLowerCase. induction s as [|c s IH]; simpl; [reflexivity |].
  now rewrite lowerChar_idem, IH.
Qed.



Lemma takeHex_prefix (n : nat) :
  forall s h, takeHex n s = Some h -> exists rest, s = h +:+ rest.
Proof.
  induction n as [|n IH]; intros s h; simpl.
  - intros [= <-]. exists s. reflexivity.
  - destruct s as [|c s]; [discriminate |].
    destruct (isHexDigit c); [| discriminate].
    destruct (takeHex n s) as [h'|] eqn:Hh; [| discriminate].
    intros [= <-]. destruct (IH _ _ Hh) as [rest ->]. exists rest. reflexivity.
Qed.

Lemma addressAt_prefix (s a : string) : addressAt s = Some a -> exists rest, s = a +:+ rest.
Proof.
  unfold addressAt.
  destruct s as [|c0 [|c1 t]]; try discriminate;
    try (destruct c0 as [[] [] [] [] [] [] [] []]; discriminate).
  destruct (ascii_dec c0 "0") as [-> |]; [| destruct c0 as [[] [] [] [] [] [] [] []]; congruence].
  destruct (ascii_dec c1 "x") as [-> |]; [| destruct c1 as [[] [] [] [] [] [] [] []]; congruence].
  destruct (takeHex 40 t) as [h|] eqn:Hh; [| discriminate].
  intros [= <-]. destruct (takeHex_prefix _ _ _ Hh) as [rest ->]. exists rest. reflexivity.
Qed.

Lemma from_suffix (i : nat) : forall s, exists pre, s = pre +:+ from i s.
Proof.
  induction i as [|i IH]; intros s; [exists EmptyString; reflexivity |].
  destruct s as [|c s]; [exists EmptyString; reflexivity |].
  destruct (IH s) as [pre Hpre]. exists (String c pre). simpl. norm_append. now rewrite <- Hpre.
Qed.

(** What [match] returns occurs in the string, and is the text at its index. *)
Lemma matchAddress_occurs (s : string) (i : nat) (a : string) :
  matchAddress s = Some (i, a) ->
  occurs a s /\ a = substring i 42 s /\ addressText a.
Proof.
  intros Hm. destruct (matchAddress_sound _ _ _ Hm) as [Hat _].
  destruct (addressAt_sound _ _ Hat) as [Hsub Htext].
  split; [| split; [now rewrite substring_from | exact Htext]].
  destruct (addressAt_prefix _ _ Hat) as [rest Hrest].
  destruct (from_suffix i s) as [pre Hpre].
  exists pre, rest. now rewrite <- Hrest.
Qed.

(** X7: a message with an address is always a data query on Ethereum: the
    type is [portfolio], [nft] or [wallet], never [gas], [chain] or
    [chain_info], whatever else the message says (a chain named in it is not
    looked at); [chain] is [ethereum], [needsData] is true, [multiChain] is
    set, and [address] is an address in lower case. *)
Theorem address_message_context (message : string) :
  containsAddress message ->
  exists a b,
    address (getBlockchainContext message) = Some a /\
    addressText a /\ toLowerCase a = a /\
    occurs a (toLowerCase message) /\
    multiChain (getBlockchainContext message) = Some b /\
    ctxChain (getBlockchainContext message) = Some "ethereum" /\
    needsData (getBlockchainContext message) = true /\
    (type (getBlockchainContext message) = portfolio \/
     type (getBlockchainContext message) = nft \/
     type (getBlockchainContext message) = wallet).
Proof.
  intros Hc. destruct (containsAddress_match _ Hc) as (i & a & Hm).
  destruct (matchAddress_occurs _ _ _ Hm) as (Hocc & Hsub & Htext).
  assert (Hlow : toLowerCase a = a).
  { assert (Ha : a = toLowerCase (substring i 42 message))
      by (rewrite Hsub; apply substring_mapChars).
    rewrite Ha. apply toLowerCase_idem. }
  unfold getBlockchainContext. rewrite Hm.
  set (lower := toLowerCase message) in *.
  set (M := isMultiChain lower). clearbody M.
  repeat first_keyword; eexists; eexists; simpl; repeat split; eauto.
Qed.

Lemma address_message_context_witness :
  exists a b,
    address (getBlockchainContext ("gas price on polygon for " +:+ zeroAddress)) = Some a /\
    addressText a /\ toLowerCase a = a /\
    occurs a (toLowerCase ("gas price on polygon for " +:+ zeroAddress)) /\
    multiChain (getBlockchainContext ("gas price on polygon for " +:+ zeroAddress)) = Some b /\
    ctxChain (getBlockchainContext ("gas price on polygon for " +:+ zeroAddress)) =
      Some "ethereum" /\
    needsData (getBlockchainContext ("gas price on polygon for " +:+ zeroAddress)) = true /\
    (type (getBlockchainContext ("gas price on polygon for " +:+ zeroAddress)) = portfolio \/
     type (getBlockchainContext ("gas price on polygon for " +:+ zeroAddress)) = nft \/
     type (getBlockchainContext ("gas price on polygon for " +:+ zeroAddress)) = wallet).
Proof.
  apply (address_message_context ("gas price on polygon for " +:+ zeroAddress)).
  exists "gas price on polygon for ", zeroAddress, EmptyString. split; [reflexivity |].
  exists "0000000000000000000000000000000000000000". repeat split; reflexivity.
Defined.

(** X8: for a message without an address the classifier is this list of
    tests on the lower-cased message, the first that holds deciding: the
    chain words [eth], [polygon] or [matic], [bsc] or [bnb], [arb], [base],
    [op], in this order, then [gas] or [fee], then [chain].  The longer
    keywords of the source add nothing, and a chain word anywhere in the
    message, inside another word too, comes before the gas and chain-list
    queries. *)
Theorem address_free_classification (message : string) :
  matchAddress (toLowerCase message) = None ->
  getBlockchainContext message =
    let s := toLowerCase message in
    if includes s "eth" then Context true (Some "ethereum") chain None None
    else if includes s "polygon" || includes s "matic"
         then Context true (Some "polygon") chain None None
    else if includes s "bsc" || includes s "bnb" then Context true (Some "bsc") chain None None
    else if includes s "arb" then Context true (Some "arbitrum") chain None None
    else if includes s "base" then Context true (Some "base") chain None None
    else if includes s "op" then Context true (Some "optimism") chain None None
    else if includes s "gas" || includes s "fee" then Context true (Some "ethereum") gas None None
    else if includes s "chain" then Context false (Some "ethereum") chain_info None None
    else Context false None general None None.
Proof.
  intros Hnone. unfold getBlockchainContext. rewrite Hnone. cbv zeta.
  set (s := toLowerCase message).
  rewrite (orb_absorb (includes s "ethereum") (includes s "eth"))
    by (apply includes_weaken; exists EmptyString, "ereum"; reflexivity).
  rewrite (orb_absorb (includes s "arbitrum") (includes s "arb"))
    by (apply includes_weaken; exists EmptyString, "itrum"; reflexivity).
  rewrite (orb_absorb (includes s "optimism") (includes s "op"))
    by (apply includes_weaken; exists EmptyString, "timism"; reflexivity).
  rewrite (orb_absorb_r (includes s "gas" || includes s "fee" || includes s "gas price")
             (includes s "gas cost"))
    by (intros H; rewrite (includes_weaken s "gas" "gas cost"); [reflexivity | | exact H];
        exists EmptyString, " cost"; reflexivity).
  rewrite (orb_absorb_r (includes s "gas" || includes s "fee") (includes s "gas price"))
    by (intros H; rewrite (includes_weaken s "gas" "gas price"); [reflexivity | | exact H];
        exists EmptyString, " price"; reflexivity).
  rewrite (orb_absorb
             (includes s "chains" || includes s "chain info" ||
              includes s "supported chains" || includes s "blockchain info")
             (includes s "chain")).
  - reflexivity.
  - intros H. repeat apply orb_prop in H as [H | H].
    + apply (includes_weaken s "chain" "chains"); [exists EmptyString, "s"; reflexivity | exact H].
    + apply (includes_weaken s "chain" "chain info");
        [exists EmptyString, " info"; reflexivity | exact H].
    + apply (includes_weaken s "chain" "supported chains");
        [exists "supported ", "s"; reflexivity | exact H].
    + apply (includes_weaken s "chain" "blockchain info");
        [exists "block", " info"; reflexivity | exact H].
Qed.

Lemma address_free_classification_witness :
  getBlockchainContext "How do I stop paying high gas fees?" =
    Context true (Some "optimism") chain None None.
Proof.
  exact (address_free_classification "How do I stop paying high gas fees?" eq_refl).
Defined.

(** ** More of the fetchers and of the summary *)

(** One chain of the loop: an entry for the chain, or the TypeError of
    reading [message] on a [null] rejection of the balance request. *)
Lemma fetchChain_outcome {S} (E : env) (c : string) (w : S) :
  (exists r, fetchChain E c w = (Normal r, w) /\ chainOf r = c) \/
  (fetchChain E c w = (Throw (typeErrorReading "message"), w) /\
   balanceReply E c = Rejected JsNullish).
Proof.
  unfold fetchChain, apiNameOf.
  destruct (property c CHAIN_CONFIGS) as [cfg|]; unfold_monad; [| left; eauto].
  destruct (balanceReply E c) as [r|[m| |]]; [| left; eauto | left; eauto | right; auto].
  destruct (tokensReply E _) as [tr|te]; left; eauto.
Qed.

Lemma fetchChains_outcome {S} (E : env) (w : S) (chains : list string) :
  forall acc,
  (exists rs, fetchChains E chains acc w = (Normal (acc ++ rs)%list, w) /\
              map chainOf rs = chains) \/
  (fetchChains E chains acc w = (Throw (typeErrorReading "message"), w) /\
   exists c, In c chains /\ balanceReply E c = Rejected JsNullish).
Proof.
  induction chains as [|c rest IH]; intros acc; simpl.
  - left. exists []. now rewrite app_nil_r.
  - unfold mbind, M_bind.
    destruct (fetchChain_outcome E c w) as [(r & -> & Hr) | [-> Hnull]].
    + destruct (IH (acc ++ [r])%list) as [(rs & -> & Hrs) | [-> (c' & Hin & Hc')]].
      * left. exists (r :: rs). rewrite <- app_assoc. simpl. now rewrite Hr, Hrs.
      * right. split; [reflexivity |]. exists c'. auto.
    + right. split; [reflexivity |]. exists c. auto.
Qed.


Lemma orElse_not_nan (x : float) : is_nan (Num.orElse x 0%float) = false.
Proof.
  unfold Num.orElse, Num.truthy.
  destruct (is_nan x) eqn:Hx; simpl; [reflexivity |].
  destruct (is_zero x); simpl; [reflexivity | exact Hx].
Qed.

(** X10: the entry of a catalog chain whose balance request is answered
    carries the chain's symbol and a balance that is never NaN; a reply
    without [data], without [result] or with an empty one counts as a
    balance of 0, and a token request that fails, or answers without a
    result, counts as an empty token list: neither shows in the entry. *)
Theorem chain_entry_defaults {S} (E : env) (c : string) (cfg : chainConfig)
        (r : response string) (w : S) :
  property c CHAIN_CONFIGS = Some cfg ->
  balanceReply E c = Resolved r ->
  exists balance t,
    fetchChain E c w = (Normal (ChainData c (Native balance (symbol cfg)) t), w) /\
    is_nan balance = false /\
    (r = NoData \/ r = Data None \/ r = Data (Some EmptyString) -> balance = 0%float) /\
    ((forall v, tokensReply E (orElse (default EmptyString (property c chainMapping)) c) <>
                Resolved (Data (Some v))) ->
     t = TokenArray []).
Proof.
  intros Hc Hr. unfold fetchChain, apiNameOf. rewrite Hc, Hr. unfold_monad.
  assert (Hsym : orElse (default EmptyString (symbol <$> Some cfg)) (toUpperCase c) = symbol cfg).
  { simpl in Hc.
    repeat match type of Hc with
           | (if ?b then _ else _) = _ => destruct b
           end; inversion Hc; reflexivity. }
  rewrite Hsym.
  destruct (tokensReply E _) as [[|[v|]]|te] eqn:Ht;
    (eexists; eexists; split; [reflexivity |]; split; [apply orElse_not_nan |]; split;
     [intros [-> | [-> | ->]]; reflexivity |]);
    intros Hv; try reflexivity.
  exfalso. exact (Hv v eq_refl).
Qed.

Lemma chain_entry_defaults_witness :
  exists balance t,
    fetchChain
      {| generateContent := generateContent steadyEnv;
         gasPriceReply := gasPriceReply steadyEnv;
         balanceReply := fun _ => Resolved (Data None);
         tokensReply := fun _ => Rejected (JsError "Request failed with status code 429") |}
      "bsc" initial =
      (Normal (ChainData "bsc" (Native balance "BNB") t), initial) /\
    is_nan balance = false /\
    (@Data string None = NoData \/ @Data string None = Data None \/
     @Data string None = Data (Some EmptyString) ->
     balance = 0%float) /\
    ((forall v : tokensValue,
        Rejected (JsError "Request failed with status code 429") <> Resolved (Data (Some v))) ->
     t = TokenArray []).
Proof.
  exact (chain_entry_defaults
           {| generateContent := generateContent steadyEnv;
              gasPriceReply := gasPriceReply steadyEnv;
              balanceReply := fun _ => Resolved (Data None);
              tokensReply := fun _ => Rejected (JsError "Request failed with status code 429") |}
           "bsc" (ChainConfig "BNB Smart Chain" "BNB" 18 "BSC") (Data None) initial
           eq_refl eq_refl).
Defined.






(** X12: [getGasPrice] never throws and leaves the state alone.  It answers
    0 when the request is rejected, whatever the rejection, and when the
    reply has no [data]; a reply with [data] but no [result] gives NaN, not
    0. *)
Theorem getGasPrice_failures {S} (E : env) (chain : string) (w : S) :
  exists g,
    getGasPrice E chain w = (Normal g, w) /\
    (forall e, gasPriceReply E chain = Rejected e -> g = 0%float) /\
    (gasPriceReply E chain = Resolved NoData -> g = 0%float) /\
    (gasPriceReply E chain = Resolved (Data None) ->
     property chain CHAIN_CONFIGS <> None -> is_nan g = true).
Proof.
  unfold getGasPrice, apiNameOf.
  destruct (property chain CHAIN_CONFIGS) as [cfg|]; unfold_monad.
  - destruct (gasPriceReply E chain) as [[|[r|]]|e]; eexists; (split; [reflexivity |]);
      repeat split; intros; try discriminate; try reflexivity; congruence.
  - eexists. split; [reflexivity |]. repeat split; intros; try reflexivity; congruence.
Qed.

(** ** More of the responder *)

Import MoreProps.

Lemma gas_context (message : string) :
  type (getBlockchainContext message) = gas ->
  getBlockchainContext message = Context true (Some "ethereum") gas None None.
Proof.
  unfold getBlockchainContext.
  set (lower := toLowerCase message).
  set (M := isMultiChain lower). clearbody M.
  destruct (matchAddress lower) as [[i a]|];
    repeat first_keyword; intros H; try discriminate H; reflexivity.
Qed.

Lemma getGasPrice_returns {S} (E : env) (chain : string) (w : S) :
  exists g, getGasPrice E chain w = (Normal g, w).
Proof.
  unfold getGasPrice, apiNameOf.
  destruct (property chain CHAIN_CONFIGS) as [cfg|]; unfold_monad; [| eauto].
  destruct (gasPriceReply E chain) as [[|r]|e]; eauto.
Qed.

Lemma getGasPrice_rejected {S} (E : env) (chain : string) (w : S) (e : thrown) :
  gasPriceReply E chain = Rejected e -> getGasPrice E chain w = (Normal 0%float, w).
Proof.
  intros He. unfold getGasPrice, apiNameOf.
  destruct (property chain CHAIN_CONFIGS) as [cfg|]; unfold_monad; [| reflexivity].
  now rewrite He.
Qed.

Lemma fetchWalletContext_returns {S} (E : env) (address : string) (chains : list string)
      (w : S) :
  exists f, fetchWalletContext E address chains w = (Normal f, w).
Proof.
  unfold fetchWalletContext, tryCatch, mbind, M_bind.
  destruct (fetchChains_outcome E w chains []) as [(rs & -> & _) | [-> _]]; eauto.
Qed.

(** X13: a message that the classifier takes for a gas query or for a
    chain-list query is answered before the commands are looked at and
    without the model: the supervisor is left as it was, also when the
    message carries the restart or the force-fallback command.  The gas
    answer is about Ethereum, the estimate when [getGasPrice] gives a number
    above 0 and the unavailable line otherwise (for 0 and for NaN); the
    chain-list answer is a fixed line. *)
Theorem data_handlers_come_first (E : env) (message : string) (w : world) :
  (type (getBlockchainContext message) = gas ->
   exists g,
     getGasPrice E "ethereum" w = (Normal g, w) /\
     getAIResponse E message w =
       (Normal (if (0 <? g)%float
                then "⛽ Gas price on ETHEREUM: ~" +:+ Num.toString g +:+ " Gwei (estimate)"
                else "⛽ Gas price on ETHEREUM: data unavailable right now."), w)) /\
  (type (getBlockchainContext message) = chain_info ->
   getAIResponse E message w = (Normal supportedChainsLine, w)).
Proof.
  split; intros Ht.
  - destruct (getGasPrice_returns E "ethereum" w) as [g Hg]. exists g. split; [exact Hg |].
    unfold getAIResponse. rewrite (gas_context _ Ht). cbn [type ctxChain default].
    unfold id, catchDefault, tryCatch, mbind, M_bind. rewrite Hg.
    change (toUpperCase "ethereum") with "ETHEREUM".
    destruct (0 <? g)%float; reflexivity.
  - unfold getAIResponse. rewrite Ht. reflexivity.
Qed.

Lemma data_handlers_come_first_witness :
  getAIResponse steadyEnv "restart mcp, gas fees are too high" fallbackWorld =
    (Normal "⛽ Gas price on ETHEREUM: ~42 Gwei (estimate)", fallbackWorld) /\
  getAIResponse steadyEnv "force fallback for this chain" initial =
    (Normal supportedChainsLine, initial).
Proof.
  split.
  - destruct (proj1 (data_handlers_come_first steadyEnv "restart mcp, gas fees are too high"
                       fallbackWorld) eq_refl) as (g & Hg & ->).
    vm_compute in Hg. inversion Hg. reflexivity.
  - exact (proj2 (data_handlers_come_first steadyEnv "force fallback for this chain" initial)
             eq_refl).
Defined.

Lemma getGeminiResponse_returns (E : env) (message : string) (w : world) :
  exists text, getGeminiResponse E message w = (Normal text, w).
Proof.
  unfold getGeminiResponse.
  set (ctx := getBlockchainContext message).
  destruct (type ctx).
  2, 4, 5, 6, 7:
    (unfold_monad; destruct (geminiModel (this w)); [| eauto];
     destruct (generateContent E _); eauto).
  all: destruct (fetchWalletContext_returns E (show (address ctx))
                   (if default false (multiChain ctx) then allChains else ["ethereum"]) w)
         as [f Hf];
    unfold tryCatch, mbind, M_bind; rewrite Hf;
    unfold_monad; destruct (geminiModel (this w)); [| eauto];
    destruct (generateContent E _); eauto.
Qed.

(** X14: what [getGeminiResponse] sends and returns.  For a wallet or
    portfolio query it fetches the address of the message, over the six
    chains when [multiChain] is set and over Ethereum alone otherwise (a
    chain named in the message plays no part), and the prompt carries the
    JSON of the summary; for every other type, NFT queries too, nothing is
    fetched and the prompt says that there is no summary.  The result is the
    text of the model, word for word, and the canned fallback response when
    the model call fails or there is no client; it never throws, and the
    state is left alone. *)
Theorem grounded_prompt (E : env) (message : string) (w : world) :
  exists summaryText,
    match type (getBlockchainContext message) with
    | wallet | portfolio =>
        exists f,
          fetchWalletContext E (show (address (getBlockchainContext message)))
            (if default false (multiChain (getBlockchainContext message))
             then allChains else ["ethereum"]) w = (Normal f, w) /\
          summaryText = summaryJSON (summarizeWalletCounts f)
    | _ => summaryText = noteJSON "no summary available"
    end /\
    getGeminiResponse E message w =
      (Normal (if geminiModel (this w)
               then match generateContent E
                            (promptFor message (getBlockchainContext message) summaryText) with
                    | Resolved text => text
                    | Rejected _ => getFallbackResponse message
                    end
               else getFallbackResponse message), w).
Proof.
  unfold getGeminiResponse.
  set (ctx := getBlockchainContext message).
  destruct (type ctx) eqn:Ht.
  2, 4, 5, 6, 7:
    (eexists; split; [reflexivity |];
     unfold_monad; destruct (geminiModel (this w)); [| reflexivity];
     destruct (generateContent E _); reflexivity).
  all: destruct (fetchWalletContext_returns E (show (address ctx))
                   (if default false (multiChain ctx) then allChains else ["ethereum"]) w)
         as [f Hf];
    exists (summaryJSON (summarizeWalletCounts f));
    (split; [exists f; split; [exact Hf | reflexivity] |]);
    unfold tryCatch, mbind, M_bind; rewrite Hf;
    unfold_monad; destruct (geminiModel (this w)); [| reflexivity];
    destruct (generateContent E _); reflexivity.
Qed.

(** X15: a message that is neither a gas nor a chain-list query and carries
    no command goes to the model when the supervisor has a client and is
    connected, and to the canned fallback response otherwise; the supervisor
    is left as it was.  While the supervisor is not connected the answer
    does not depend on the outside at all. *)
Theorem plain_chat_routing (E : env) (message : string) (w : world) :
  plainChat message = true ->
  getAIResponse E message w =
    (if geminiModel (this w) && isConnected (this w)
     then getGeminiResponse E message w
     else (Normal (getFallbackResponse message), w)) /\
  after (getAIResponse E message) w = w /\
  (isConnected (this w) = false ->
   forall E', getAIResponse E' message w = (Normal (getFallbackResponse message), w)).
Proof.
  intros Hplain.
  assert (Hall : forall E0, getAIResponse E0 message w =
            (if geminiModel (this w) && isConnected (this w)
             then getGeminiResponse E0 message w
             else (Normal (getFallbackResponse message), w))).
  { intros E0. unfold plainChat, commandFree in Hplain. unfold getAIResponse.
    destruct (type (getBlockchainContext message)); try discriminate Hplain;
      repeat match type of Hplain with
             | context [includes ?s ?k] => destruct (includes s k); try discriminate Hplain
             end;
      unfold tryCatch, mbind, M_bind, get;
      (destruct (geminiModel (this w) && isConnected (this w)); [| reflexivity]);
      destruct (getGeminiResponse_returns E0 message w) as [text ->]; reflexivity. }
  split; [apply Hall |]. split.
  - unfold after. rewrite Hall.
    destruct (geminiModel (this w) && isConnected (this w)); [| reflexivity].
    destruct (getGeminiResponse_returns E message w) as [text ->]. reflexivity.
  - intros Hoff E'. rewrite Hall, Hoff, andb_false_r. reflexivity.
Qed.

Lemma plain_chat_routing_witness :
  getAIResponse steadyEnv "What is a rollup?" fallbackWorld =
    (Normal (getFallbackResponse "What is a rollup?"), fallbackWorld).
Proof.
  exact (proj2 (proj2 (plain_chat_routing steadyEnv "What is a rollup?" fallbackWorld eq_refl))
           eq_refl steadyEnv).
Defined.

(** X16: every canned fallback response opens with the same heading.  It is
    one of three fixed texts, or the default text, which is the only one to
    quote the message; and which of them it is depends on the lower case of
    the message alone. *)
Theorem fallback_response_shape (message other : string) :
  String.prefix "🔄 **Fallback AI Response" (getFallbackResponse message) = true /\
  occurs (dq +:+ message +:+ dq) (defaultText message) /\
  (toLowerCase other = toLowerCase message ->
   (getFallbackResponse other = getFallbackResponse message /\
    (getFallbackResponse message = helpText \/
     getFallbackResponse message = supportedChainsText \/
     getFallbackResponse message = systemStatusText)) \/
   (getFallbackResponse other = defaultText other /\
    getFallbackResponse message = defaultText message)).
Proof.
  split; [| split].
  - unfold getFallbackResponse.
    repeat match goal with
           | |- context [if ?b then _ else _] => destruct b
           end; reflexivity.
  - unfold defaultText.
    match goal with
    | |- occurs _ (?pre +:+ dq +:+ message +:+ dq +:+ ?post) => exists pre, post
    end.
    now rewrite !append_assoc.
  - intros Hsame. unfold getFallbackResponse. rewrite Hsame.
    destruct (includes (toLowerCase message) "help" ||
              includes (toLowerCase message) "what can you do");
      [left; split; [reflexivity | left; reflexivity] |].
    destruct (includes (toLowerCase message) "supported" ||
              includes (toLowerCase message) "chains" ||
              includes (toLowerCase message) "networks");
      [left; split; [reflexivity | right; left; reflexivity] |].
    destruct (includes (toLowerCase message) "status" ||
              includes (toLowerCase message) "health");
      [left; split; [reflexivity | right; right; reflexivity] |].
    right. split; reflexivity.
Qed.

(** ** The routes *)

Import NumMore Routes.

Lemma getAIResponse_returns (E : env) (message : string) (w : world) :
  exists text,
    getAIResponse E message w = (Normal text, after (getAIResponse E message) w).
Proof.
  unfold after. destruct (getAIResponse E message w) as [[text|e] w'] eqn:H; [eauto |].
  exfalso. unfold getAIResponse, tryCatch in H.
  match type of H with
  | context [match ?b with _ => _ end] => destruct b as [[?|?] ?]
  end; discriminate H.
Qed.

Lemma statusLabel_reads (c f : bool) :
  c && f = false ->
  (statusLabel c f = "Gemini Active" <-> c = true) /\
  (statusLabel c f = "Fallback Mode" <-> f = true) /\
  statusLabel c f <> "Error".
Proof. destruct c, f; intros H; try discriminate H; repeat split; intros; discriminate || reflexivity. Qed.

(** X17: the chat route always answers with the JSON of an answer, never
    with the status 500, whenever the request has a body.  For a message it
    is the text of [getAIResponse] with the flags and the last error of the
    supervisor as that call left them, and a status that is never [Error]:
    it reads [Gemini Active] exactly when the supervisor is connected and
    [Fallback Mode] exactly when it is in fallback mode.  A body without a
    message gets the system error text with the status [Error] and both
    flags false, whatever the supervisor's state, which stays as it was.
    Only a request with no body at all gets the 500. *)
Theorem chat_route_always_answers (E : env) (message : string) (acts : list action) :
  exists text,
    getAIResponse E message (run acts initial) =
      (Normal text, after (getAIResponse E message) (run acts initial)) /\
    chatRoute E (Some (Some message)) (run acts initial) =
      (Normal (ChatJson
         (ChatBody text
            (isConnected (this (after (getAIResponse E message) (run acts initial))))
            (fallbackMode (this (after (getAIResponse E message) (run acts initial))))
            (lastError (this (after (getAIResponse E message) (run acts initial))))
            (statusLabel
               (isConnected (this (after (getAIResponse E message) (run acts initial))))
               (fallbackMode (this (after (getAIResponse E message) (run acts initial))))))),
       after (getAIResponse E message) (run acts initial)) /\
    (statusLabel
       (isConnected (this (after (getAIResponse E message) (run acts initial))))
       (fallbackMode (this (after (getAIResponse E message) (run acts initial)))) =
       "Gemini Active" <->
     isConnected (this (after (getAIResponse E message) (run acts initial))) = true) /\
    (statusLabel
       (isConnected (this (after (getAIResponse E message) (run acts initial))))
       (fallbackMode (this (after (getAIResponse E message) (run acts initial)))) =
       "Fallback Mode" <->
     fallbackMode (this (after (getAIResponse E message) (run acts initial))) = true) /\
    statusLabel
       (isConnected (this (after (getAIResponse E message) (run acts initial))))
       (fallbackMode (this (after (getAIResponse E message) (run acts initial)))) <> "Error" /\
    chatRoute E (Some None) (run acts initial) =
      (Normal (ChatJson
         (ChatBody
            (systemErrorText "Cannot read properties of undefined (reading 'toLowerCase')")
            false false
            (Some "Cannot read properties of undefined (reading 'toLowerCase')")
            "Error")),
       run acts initial) /\
    chatRoute E None (run acts initial) =
      (Normal (ChatFailed
         "Failed to get AI response: Cannot destructure property 'message' of 'req.body' as it is undefined."
         systemErrorPlain),
       run acts initial).
Proof.
  pose proof (consistent_perform (CallGetAIResponse E message) _
                (consistent_run acts initial eq_refl)) as Hcons.
  unfold consistent, perform in Hcons.
  destruct (statusLabel_reads _ _ Hcons) as (Hactive & Hfallback & Herror).
  destruct (getAIResponse_returns E message (run acts initial)) as [text Htext].
  exists text. split; [exact Htext |]. split; [| repeat split; try tauto].
  unfold chatRoute, getAIResponseOf, tryCatch, mbind, M_bind, mret, M_ret, get.
  rewrite Htext. reflexivity.
Qed.

(** X18: the restart route never answers 500: it reports [success] as
    [restart()] returned it, true exactly when the test request succeeded,
    together with a status in which [isConnected] is [success] and
    [fallbackMode] is its opposite, whatever the state was before.  The
    force-fallback route always reports success, with a status that is in
    fallback mode, not connected, and has the route's reason as
    [lastError]. *)
Theorem admin_routes_report (probe : outcome string) (w : world) :
  (exists success st,
     restartRoute probe w =
       (Normal (AdminJson success
                  (if success then "Gemini MCP server restarted successfully"
                   else "Failed to restart Gemini MCP server") st),
        after (restart probe) w) /\
     result (restart probe) w = Normal success /\
     st_isConnected st = success /\
     st_fallbackMode st = negb success /\
     (success = true <-> exists text, probe = Resolved text)) /\
  (exists st,
     forceFallbackRoute w =
       (Normal (AdminJson true "Fallback mode activated successfully" st),
        after (enableFallbackMode "Manual fallback activation for testing") w) /\
     st_isConnected st = false /\
     st_fallbackMode st = true /\
     st_lastError st = Some "Manual fallback activation for testing").
Proof.
  split.
  - unfold restartRoute. destruct probe as [text|e].
    + exists true. by_cases w; eexists;
        (split; [reflexivity |]); (split; [reflexivity |]); (split; [reflexivity |]);
        (split; [reflexivity |]); split; eauto.
    + exists false. by_cases w; eexists;
        (split; [reflexivity |]); (split; [reflexivity |]); (split; [reflexivity |]);
        (split; [reflexivity |]); split; intros H; try discriminate H;
        destruct H as [? H]; discriminate H.
  - unfold forceFallbackRoute. by_cases w; eexists; repeat split.
Qed.

Lemma div_by_nan (x : float) : (x / nan)%float = nan.
Proof.
  rewrite <- (SF2Prim_Prim2SF (x / nan)), div_spec.
  change (Prim2SF nan) with S754_nan.
  destruct (Prim2SF x); reflexivity.
Qed.

Lemma memberOf_inherited (c : string) : In c objectPrototypeNames -> memberOf c = Inherited.
Proof.
  intros H. simpl in H. repeat destruct H as [<- | H]; try contradiction; reflexivity.
Qed.

(** X19: the wallet route never throws.  It answers 400 [Unsupported chain],
    without asking the gateway, when the [chain] parameter is missing or is
    neither a key of the catalog nor a name that objects inherit.  For a
    chain of the catalog it answers with the balance of the conversion when
    the node answers, and with 500 and the message of the error when the
    request is rejected or the answer has no data.  A name inherited from
    [Object.prototype], such as [constructor], passes the guard: the node
    [undefined] is asked and the balance reads [NaN]. *)
Theorem wallet_route_answers {S} (G : gateway) (address : string) (chain : option string)
        (w : S) :
  (exists r, walletRoute G address chain w = (Normal r, w)) /\
  (memberOf (show chain) = Absent ->
   walletRoute G address chain w = (Normal (Failed 400 "Unsupported chain"), w)) /\
  (forall c cfg,
     chain = Some c -> property c CHAIN_CONFIGS = Some cfg ->
     (forall result,
        nodeReply G (apiName cfg) "eth_getBalance" = Resolved (Data result) ->
        walletRoute G address chain w =
          (Normal (Json (WalletBody (balanceInEth result (decimals cfg)) 0 c address)), w)) /\
     (forall e msg,
        nodeReply G (apiName cfg) "eth_getBalance" = Rejected e ->
        readable e = Some msg ->
        walletRoute G address chain w =
          (Normal (Failed 500 ("Failed to get wallet balance: " +:+ show msg)), w)) /\
     (nodeReply G (apiName cfg) "eth_getBalance" = Resolved NoData ->
      walletRoute G address chain w =
        (Normal (Failed 500
           "Failed to get wallet balance: Cannot read properties of undefined (reading 'result')"),
         w))) /\
  (forall c result,
     chain = Some c -> In c objectPrototypeNames ->
     nodeReply G "undefined" "eth_getBalance" = Resolved (Data result) ->
     walletRoute G address chain w = (Normal (Json (WalletBody "NaN" 0 c address)), w)).
Proof.
  split; [| split; [| split]].
  - unfold walletRoute, callTatumAPI, resultOf.
    destruct (memberOf (show chain)); unfold_monad;
      try (destruct (nodeReply G _ _) as [[|r]|[m| |]]); eauto.
  - intros Habs. unfold walletRoute. rewrite Habs. reflexivity.
  - intros c cfg -> Hc.
    assert (Hm : memberOf (show (Some c)) = Own cfg)
      by (change (show (Some c)) with c; unfold memberOf; now rewrite Hc).
    unfold walletRoute, callTatumAPI, resultOf. rewrite Hm. simpl nodeOf.
    split; [| split].
    + intros result ->. reflexivity.
    + intros e msg -> Hmsg. destruct e; simpl in Hmsg; inversion Hmsg; reflexivity.
    + intros ->. reflexivity.
  - intros c result -> Hin Hr.
    unfold walletRoute, callTatumAPI, resultOf.
    change (show (Some c)) with c. rewrite (memberOf_inherited c Hin). simpl nodeOf.
    rewrite Hr. unfold_monad. rewrite div_by_nan. reflexivity.
Qed.

Lemma wallet_route_answers_witness :
  walletRoute (constantGateway oneAndAHalf) zeroAddress (Some "solana") tt =
    (Normal (Failed 400 "Unsupported chain"), tt) /\
  walletRoute (constantGateway oneAndAHalf) zeroAddress (Some "constructor") tt =
    (Normal (Json (WalletBody "NaN" 0 "constructor" zeroAddress)), tt).
Proof.
  split.
  - exact (proj1 (proj2 (wallet_route_answers (constantGateway oneAndAHalf) zeroAddress
                           (Some "solana") tt)) eq_refl).
  - apply (proj2 (proj2 (proj2 (wallet_route_answers (constantGateway oneAndAHalf) zeroAddress
                                  (Some "constructor") tt)))
             "constructor" (Some oneAndAHalf) eq_refl).
    + left. reflexivity.
    + reflexivity.
Defined.

Lemma whole_gwei_tiers_checked : forallb wholeGweiTiers (seq 0 1001) = true.
Proof. vm_compute. reflexivity. Qed.

(** X20: the gas route, for a chain of the catalog whose node reports a
    price of a whole number of Gwei up to 1000: it answers with four tiers
    of which the standard one is that number, and which are in the order
    slow, base fee, standard, fast.  A node answer without a [result] gives
    four tiers of 0, a rejected request the status 500 with the message of
    the error, and a chain that is no member of the catalog object the
    status 400, before any request. *)
Theorem gas_route_tiers {S} (G : gateway) (chain : string) (cfg : chainConfig) (g : nat)
        (w : S) :
  property chain CHAIN_CONFIGS = Some cfg ->
  (g <= 1000)%nat ->
  (nodeReply G (apiName cfg) "eth_gasPrice" =
     Resolved (Data (Some (quantity (Z.of_nat g * 10 ^ 9)))) ->
   exists t,
     gasRoute G chain w = (Normal (Json (t, chain)), w) /\
     Num.toString (standard t) = decimal (Z.of_nat g) /\
     tiersInOrder t = true) /\
  (nodeReply G (apiName cfg) "eth_gasPrice" = Resolved (Data None) ->
   gasRoute G chain w = (Normal (Json (GasTiers 0 0 0 0, chain)), w)) /\
  (forall e msg,
     nodeReply G (apiName cfg) "eth_gasPrice" = Rejected e -> readable e = Some msg ->
     gasRoute G chain w = (Normal (Failed 500 ("Failed to get gas price: " +:+ show msg)), w)) /\
  (forall other, memberOf other = Absent ->
     gasRoute G other w = (Normal (Failed 400 "Unsupported chain"), w)).
Proof.
  intros Hc Hg.
  assert (Hm : memberOf chain = Own cfg) by (unfold memberOf; now rewrite Hc).
  split; [| split; [| split]].
  - intros Hr. exists (tiersOf (Some (quantity (Z.of_nat g * 10 ^ 9)))).
    split.
    + unfold gasRoute, callTatumAPI, resultOf. rewrite Hm. simpl nodeOf. rewrite Hr. reflexivity.
    + pose proof whole_gwei_tiers_checked as Hall.
      rewrite forallb_forall in Hall.
      specialize (Hall g ltac:(apply in_seq; lia)).
      unfold wholeGweiTiers in Hall. apply andb_prop in Hall as [Hstd Hord].
      split; [now apply String.eqb_eq | exact Hord].
  - intros Hr. unfold gasRoute, callTatumAPI, resultOf. rewrite Hm. simpl nodeOf. rewrite Hr.
    vm_compute. reflexivity.
  - intros e msg Hr Hmsg. unfold gasRoute, callTatumAPI, resultOf. rewrite Hm. simpl nodeOf.
    rewrite Hr. destruct e; simpl in Hmsg; inversion Hmsg; reflexivity.
  - intros other Habs. unfold gasRoute. rewrite Habs. reflexivity.
Qed.

Lemma gas_route_tiers_witness :
  exists t,
    gasRoute (constantGateway (quantity (5 * 10 ^ 9))) "polygon" tt =
      (Normal (Json (t, "polygon")), tt) /\
    Num.toString (standard t) = "5" /\
    tiersInOrder t = true.
Proof.
  apply (proj1 (gas_route_tiers (constantGateway (quantity (5 * 10 ^ 9))) "polygon"
                  (ChainConfig "Polygon" "MATIC" 18 "MATIC") 5 tt eq_refl
                  ltac:(repeat constructor))).
  reflexivity.
Defined.

(** ** The analytics *)

Import Analytics.

Lemma getNetworkStats_returns (A : source) (chain : string) (n : nat) :
  exists ns n',
    getNetworkStats A chain n = (Normal ns, n') /\
    (n' = n \/ n' = (3 + n)%nat) /\
    (forall e, blockNumberReply A chain = Rejected e -> ns = noStats /\ n' = n).
Proof.
  unfold getNetworkStats, apiNameOf, mathRandom.
  destruct (property chain CHAIN_CONFIGS) as [cfg|]; unfold_monad.
  - destruct (blockNumberReply A chain) as [[|r]|e]; do 2 eexists;
      (split; [reflexivity |]); split; auto; intros; try discriminate; auto.
  - do 2 eexists. split; [reflexivity |]. split; auto.
Qed.

Lemma analyseChain_catalog (A : source) (t v aw : float) (d : list (string * chainStats))
      (mc : float) (chain : string) (cfg : chainConfig) (n : nat) :
  property chain CHAIN_CONFIGS = Some cfg ->
  exists g ns n',
    analyseChain A (AnalyticsData t v aw d mc) chain n =
      (Normal (AnalyticsData
                 (t + Num.orElse (transactionCount ns) 0)%float
                 (v + Num.orElse (volume ns) 0)%float
                 (aw + Num.orElse (activeWallets ns) 0)%float
                 (setProperty chain (ChainStats (name cfg) (symbol cfg) g ns) d)
                 mc), n') /\
    (n <= n' <= 3 + n)%nat /\
    ((exists e, gasPriceReply (fetchers A) chain = Rejected e) -> g = 0%float) /\
    ((exists e, blockNumberReply A chain = Rejected e) -> ns = noStats /\ n' = n).
Proof.
  intros Hc. unfold analyseChain.
  destruct (@getGasPrice_returns nat (fetchers A) chain n) as (g & Hg).
  pose proof (@getGasPrice_rejected nat (fetchers A) chain n) as Hrej.
  destruct (getNetworkStats_returns A chain n) as (ns & n' & Hs & Hn & Hnone).
  exists g, ns, n'.
  unfold tryCatch, mbind, M_bind. rewrite Hg. cbn beta iota. rewrite Hs. cbn beta iota.
  rewrite Hc. split; [reflexivity |]. split; [lia |]. split.
  - intros [e He]. specialize (Hrej e He). congruence.
  - intros [e He]. eauto.
Qed.

(** X21: the analytics never fail, whatever the nodes answer: the result
    lists the six chains of the catalog in its order, each with the name and
    the symbol of the catalog, the market capitalisation is the 0 it starts
    with, and [Math.random] is called at most three times for each chain. *)
Theorem analytics_list_every_chain (A : source) (n : nat) :
  exists a n',
    getRealAnalyticsData A n = (Normal a, n') /\
    map fst (chainDistribution a) = allChains /\
    map (fun kv => (chainName (snd kv), chainSymbol (snd kv))) (chainDistribution a) =
      map (fun kv => (name (snd kv), symbol (snd kv))) CHAIN_CONFIGS /\
    marketCap a = 0%float /\
    (n <= n' <= 18 + n)%nat.
Proof.
  unfold getRealAnalyticsData, allChains, emptyAnalytics. simpl analyseChains.
  unfold mbind, M_bind.
  repeat match goal with
         | |- context [analyseChain A (AnalyticsData ?t ?v ?aw ?d ?mc) ?c ?m] =>
             let g := fresh "g" in
             let ns := fresh "ns" in
             let m' := fresh "m" in
             let Heq := fresh "Heq" in
             let Hm := fresh "Hm" in
             edestruct (analyseChain_catalog A t v aw d mc c _ m eq_refl)
               as (g & ns & m' & Heq & Hm & _);
             rewrite Heq; clear Heq; cbn beta iota
         end.
  do 2 eexists. split; [reflexivity |].
  split; [vm_compute; reflexivity |].
  split; [vm_compute; reflexivity |].
  split; [reflexivity | lia].
Qed.

(** X22: when every request of the analytics is rejected, the analytics
    still return: every total is 0, each of the six chains is listed with
    its catalog name and symbol, a gas price of 0 and statistics of 0, and
    [Math.random] is not called. *)
Theorem analytics_of_failing_nodes (A : source) (n : nat) :
  (forall chain, exists e, gasPriceReply (fetchers A) chain = Rejected e) ->
  (forall chain, exists e, blockNumberReply A chain = Rejected e) ->
  getRealAnalyticsData A n =
    (Normal (AnalyticsData 0 0 0
               (map (fun kv => (fst kv, ChainStats (name (snd kv)) (symbol (snd kv)) 0 noStats))
                  CHAIN_CONFIGS)
               0), n).
Proof.
  intros Hgas Hblock.
  unfold getRealAnalyticsData, allChains, emptyAnalytics. simpl analyseChains.
  unfold mbind, M_bind.
  repeat match goal with
         | |- context [analyseChain A (AnalyticsData ?t ?v ?aw ?d ?mc) ?c ?m] =>
             let g := fresh "g" in
             let ns := fresh "ns" in
             let m' := fresh "m" in
             let Heq := fresh "Heq" in
             let Hg := fresh "Hg" in
             let Hs := fresh "Hs" in
             edestruct (analyseChain_catalog A t v aw d mc c _ m eq_refl)
               as (g & ns & m' & Heq & _ & Hg & Hs);
             rewrite Heq; clear Heq; cbn beta iota;
             rewrite (Hg (Hgas c)); destruct (Hs (Hblock c)) as [-> ->]; clear Hg Hs
         end.
  vm_compute. reflexivity.
Qed.

Lemma analytics_of_failing_nodes_witness :
  getRealAnalyticsData failingSource 0%nat =
    (Normal (AnalyticsData 0 0 0
               (map (fun kv => (fst kv, ChainStats (name (snd kv)) (symbol (snd kv)) 0 noStats))
                  CHAIN_CONFIGS)
               0), 0%nat).
Proof.
  apply (analytics_of_failing_nodes failingSource 0%nat).
  - intros chain. exists (JsError "offline"). reflexivity.
  - intros chain. exists (JsError "offline"). reflexivity.
Defined.
